(** * plot_tool.py: chart tools over an agent session

    A shallow embedding of the four tool functions of [src/plot_tool.py]
    ([plot_tool], [list_charts_tool], [load_chart_tool],
    [delete_chart_tool]) and the properties their specification states.

    The tools are straight-line Python around external collaborators: the
    [json] module, pandas, plotly, the agent framework's artifact service
    and session state, the operating system.  The collaborators are
    interfaces (type classes) whose operations return either an exception
    or a value; the tools' own control flow (the order of the calls, the
    [try]/[except] clauses, the dictionaries that are returned, the list
    kept under ["generated_charts"]) is written out.

    The last three lines of the file wrap [plot_tool], [load_chart_tool]
    and [list_charts_tool] as [FunctionTool] objects for the agent; what
    is modelled is the functions that the agent then calls. *)

From stdpp Require Import base option list strings gmap.
From Stdlib Require Import Strings.Ascii Strings.String Strings.Byte DecimalString.

Set Warnings "-register-all".

Local Open Scope string_scope.

(** ** Python strings

    A Python [str] is modelled by its UTF-8 bytes.  Equality, concatenation,
    [endswith] and the replacement of one ASCII character by another are the
    same on code points and on UTF-8 bytes. *)

Module PyStr.

(** [s.endswith(suffix)] *)
Definition endswith (s suffix : string) : bool :=
  let n := String.length s in
  let m := String.length suffix in
  if (m <=? n)%nat then String.eqb (String.substring (n - m) m s) suffix
  else false.

(** [s.startswith(c)] for a one-character [c] *)
Definition startswith_char (s : string) (c : ascii) : bool :=
  match s with
  | String a _ => Ascii.eqb a c
  | EmptyString => false
  end.

(** [s.replace(old, new)] for one-character [old] and [new] *)
Fixpoint replace_char (old new : ascii) (s : string) : string :=
  match s with
  | EmptyString => EmptyString
  | String a rest =>
      String (if Ascii.eqb a old then new else a) (replace_char old new rest)
  end.

(** The decimal digit of [n mod 10]. *)
Definition digit (n : N) : ascii := ascii_of_N (48 + n mod 10).

Definition is_digit (a : ascii) : bool :=
  let n := N_of_ascii a in (48 <=? n)%N && (n <=? 57)%N.

(** [%02d] on values below 100 and [%04d] on values below 10000. *)
Definition zfill2 (n : N) : string :=
  String (digit (n / 10)) (String (digit n) EmptyString).

Definition zfill4 (n : N) : string :=
  String (digit (n / 1000)) (String (digit (n / 100)) (zfill2 n)).

(** [str(n)] for a non-negative [int] *)
Definition of_nat (n : nat) : string :=
  NilEmpty.string_of_uint (Nat.to_uint n).

End PyStr.

(** ** [os.path.join] (POSIX flavour, two arguments) *)

Definition os_path_join (a b : string) : string :=
  if PyStr.startswith_char b "/"%char then b
  else if orb (String.eqb a EmptyString) (PyStr.endswith a "/") then a ++ b
  else a ++ "/" ++ b.

(** ** [datetime.now().strftime("%Y%m%d_%H%M%S")] *)

Record datetime := {
  year : N; month : N; day : N;
  hour : N; minute : N; second : N
}.

(** The ranges a Python [datetime] keeps, with the year at four digits. *)
Definition valid_datetime (d : datetime) : Prop :=
  (1000 ≤ year d ≤ 9999 ∧ 1 ≤ month d ≤ 12 ∧ 1 ≤ day d ≤ 31 ∧
   hour d < 24 ∧ minute d < 60 ∧ second d < 60)%N.

Definition strftime (d : datetime) : string :=
  PyStr.zfill4 (year d) ++ PyStr.zfill2 (month d) ++ PyStr.zfill2 (day d)
  ++ "_" ++ PyStr.zfill2 (hour d) ++ PyStr.zfill2 (minute d)
  ++ PyStr.zfill2 (second d).

(** Reading a text of the shape [YYYYMMDD_HHMMSS] back: fourteen decimal
    digits, with an underscore after the eighth. *)
Definition digit_value (a : ascii) : option N :=
  if PyStr.is_digit a then Some (N_of_ascii a - 48)%N else None.

Fixpoint read_number (acc : N) (digits : list ascii) : option N :=
  match digits with
  | [] => Some acc
  | a :: rest =>
      match digit_value a with
      | Some v => read_number (10 * acc + v) rest
      | None => None
      end
  end.

Definition parse_timestamp (s : string) : option datetime :=
  match list_ascii_of_string s with
  | [y1; y2; y3; y4; m1; m2; d1; d2; sep; h1; h2; mi1; mi2; s1; s2] =>
      if Ascii.eqb sep "_" then
        match read_number 0 [y1; y2; y3; y4], read_number 0 [m1; m2],
              read_number 0 [d1; d2], read_number 0 [h1; h2],
              read_number 0 [mi1; mi2], read_number 0 [s1; s2] with
        | Some y, Some m, Some d, Some h, Some mi, Some sec =>
            Some {| year := y; month := m; day := d;
                    hour := h; minute := mi; second := sec |}
        | _, _, _, _, _, _ => None
        end
      else None
  | _ => None
  end.

(** ** Exceptions

    The [except] clauses of the tools tell three classes apart, in this
    order: [json.JSONDecodeError], [KeyError], and any other [Exception].
    Each carries the text [str(e)] that an f-string prints. *)

Inductive exn :=
| JSONDecodeError (msg : string)
| KeyError (msg : string)
| OtherException (msg : string).

(** ** JSON values, as [json.loads] builds them *)

Inductive json :=
| JNull
| JBool (b : bool)
| JInt (n : Z)
| JFloat (lexeme : string)
| JStr (s : string)
| JArr (items : list json)
| JObj (fields : list (string * json)).

Fixpoint assoc {A} (k : string) (kvs : list (string * A)) : option A :=
  match kvs with
  | [] => None
  | (k', v) :: rest => if String.eqb k' k then Some v else assoc k rest
  end.

(** [data[key]] for a string key.  A [dict] raises [KeyError(key)], whose
    text is [repr(key)]; the tools only subscript with the constants
    ['df'], ['x_col'] and ['y_col'], so the text is the key in single
    quotes.  Every other JSON value raises [TypeError]. *)
Definition getitem (data : json) (key : string) : exn + json :=
  match data with
  | JObj fields =>
      match assoc key fields with
      | Some v => inr v
      | None => inl (KeyError ("'" ++ key ++ "'"))
      end
  | JArr _ =>
      inl (OtherException "list indices must be integers or slices, not str")
  | JStr _ => inl (OtherException "string indices must be integers, not 'str'")
  | JNull => inl (OtherException "'NoneType' object is not subscriptable")
  | JBool _ => inl (OtherException "'bool' object is not subscriptable")
  | JInt _ => inl (OtherException "'int' object is not subscriptable")
  | JFloat _ => inl (OtherException "'float' object is not subscriptable")
  end.

(** The name of a value's Python type, as error texts print it. *)
Definition type_name (v : json) : string :=
  match v with
  | JNull => "NoneType"
  | JBool _ => "bool"
  | JInt _ => "int"
  | JFloat _ => "float"
  | JStr _ => "str"
  | JArr _ => "list"
  | JObj _ => "dict"
  end.

(** ** Artifacts: [google.genai.types.Part]

    [Part.from_bytes] wraps the bytes and the mime type in a [Blob] stored
    in the part's [inline_data].  [load_chart_tool] asks
    [hasattr(chart_part, 'inline_data')] before reading it, so the model
    keeps apart an object without that attribute, a part whose
    [inline_data] is [None], and a part that carries a blob. *)

Record Blob := { data : list byte; mime_type : option string }.

Inductive attribute (A : Type) :=
| Missing
| Present (a : A).
Arguments Missing {A}.
Arguments Present {A} a.

Record Part := { inline_data : attribute (option Blob) }.

Definition Part_from_bytes (bytes : list byte) (mime : string) : Part :=
  {| inline_data := Present (Some {| data := bytes; mime_type := Some mime |}) |}.

(** ** The record kept per chart under ["generated_charts"]

    The dictionary literal [chart_info] of [plot_tool], field by field.
    [x_col] and [y_col] hold the values read from the parsed parameters. *)

Module ChartRecord.
Record t (Version : Type) := Build {
  filename : string;
  chart_type : string;
  x_col : json;
  y_col : json;
  timestamp : string;
  version : Version
}.
Arguments Build {Version}.
Arguments filename {Version}.
Arguments chart_type {Version}.
Arguments x_col {Version}.
Arguments y_col {Version}.
Arguments timestamp {Version}.
Arguments version {Version}.
End ChartRecord.

(** ** The dictionaries the tools return *)

Inductive pyval (Version : Type) :=
| PyNone
| PyStr (s : string)
| PyInt (n : nat)
| PyVersion (v : Version)
| PyNames (names : list string)
| PyChart (chart : ChartRecord.t Version)
| PyCharts (charts : list (ChartRecord.t Version)).
Arguments PyNone {Version}.
Arguments PyStr {Version}.
Arguments PyInt {Version}.
Arguments PyVersion {Version}.
Arguments PyNames {Version}.
Arguments PyChart {Version}.
Arguments PyCharts {Version}.

(** ** Collaborators *)

(** The Python runtime: [json.loads], the text an f-string prints for a
    value that is not a [str], and [str.title]. *)
Class Python := {
  json_loads : string → exn + json;
  str_of_value : json → string;
  str_title : string → string
}.

(** The operating system: [os.makedirs(path, exist_ok=True)]. *)
Class OS := {
  FS : Type;
  os_makedirs : string → FS → (exn + unit) * FS
}.

(** pandas and plotly.  [columns] are the labels of a frame; the four
    [px] functions take the frame, [x], [y] and [title]; [update_layout]
    takes [title_font_size], [xaxis_title], [yaxis_title] and [template];
    [to_image] and [write_image] take [format] (or the path), [width],
    [height] and [scale]. *)
Class ChartLib `{OS} := {
  DataFrame : Type;
  Figure : Type;
  pd_DataFrame : json → exn + DataFrame;
  columns : DataFrame → list string;
  px_line : DataFrame → json → json → string → exn + Figure;
  px_bar : DataFrame → json → json → string → exn + Figure;
  px_scatter : DataFrame → json → json → string → exn + Figure;
  px_area : DataFrame → json → json → string → exn + Figure;
  update_layout : Figure → N → string → string → string → exn + Figure;
  to_image : Figure → string → N → N → N → exn + list byte;
  write_image : Figure → string → N → N → N → FS → (exn + unit) * FS
}.

(** The agent framework's artifact service, reached through the tool
    context: [save_artifact] returns the version of the stored artifact,
    [load_artifact] returns [None] when nothing is stored under the name.
    The service owns its store and nothing else: a call may change the
    store, also when it raises, and has no access to the session state or
    to the files. *)
Class ADK := {
  Version : Type;
  ArtStore : Type;
  save_artifact : string → Part → ArtStore → (exn + Version) * ArtStore;
  list_artifacts : ArtStore → (exn + list string) * ArtStore;
  load_artifact : string → ArtStore → (exn + option Part) * ArtStore
}.

(** A tool context is a handle on the session: its artifact service and
    its state mapping live in the world below. *)
Inductive ToolContext := ToolContextHandle.

Section Tools.
Context {py : Python} {os : OS} {lib : ChartLib} {adk : ADK}.

Abbreviation ChartRecord := (ChartRecord.t Version).
Abbreviation Result := (list (string * pyval Version)).

(** ** The world the tools act on

    The artifact store and the session state of the context, the file
    system, and the local time that [datetime.now()] reads.  The session
    state is a string-keyed mapping; the key the tools use holds a list
    of chart records. *)
Record World := {
  artifacts : ArtStore;
  state : gmap string (list ChartRecord);
  files : FS;
  clock : datetime
}.

Definition set_artifacts (a : ArtStore) (w : World) : World :=
  {| artifacts := a; state := state w; files := files w; clock := clock w |}.
Definition set_state (s : gmap string (list ChartRecord)) (w : World) : World :=
  {| artifacts := artifacts w; state := s; files := files w; clock := clock w |}.
Definition set_files (f : FS) (w : World) : World :=
  {| artifacts := artifacts w; state := state w; files := f; clock := clock w |}.

(** ** Computations that may raise

    A computation runs in a world and ends with an exception or a value;
    what it did to the world before raising stays done. *)
Definition M (A : Type) : Type := World → (exn + A) * World.

Definition ret {A} (a : A) : M A := λ w, (inr a, w).

Definition bind {A B} (m : M A) (k : A → M B) : M B :=
  λ w, match m w with
       | (inr a, w') => k a w'
       | (inl e, w') => (inl e, w')
       end.

Definition lift {A} (r : exn + A) : M A := λ w, (r, w).

(** [try: body  except ...: handler] where both return the result of the
    function. *)
Definition try_except {A} (body : M A) (handler : exn → A) : World → A * World :=
  λ w, match body w with
       | (inr a, w') => (a, w')
       | (inl e, w') => (handler e, w')
       end.

Local Notation "'let!' x ':=' m 'in' k" := (bind m (λ x, k))
  (at level 10, x name, m at level 100, k at level 200, only parsing).

(** Calls on the collaborators that own a part of the world. *)
Definition on_artifacts {A} (f : ArtStore → (exn + A) * ArtStore) : M A :=
  λ w, let (r, a) := f (artifacts w) in (r, set_artifacts a w).

Definition on_files {A} (f : FS → (exn + A) * FS) : M A :=
  λ w, let (r, fs) := f (files w) in (r, set_files fs w).

(** [tool_context.state.get(key, default)] and
    [tool_context.state[key] = value].  The list that [get] returns is the
    object kept in the state; [plot_tool] appends to it and stores it back
    with no call in between, which leaves the state as the update of the
    key by the longer list does. *)
Definition state_get (key : string) (dflt : list ChartRecord) : M (list ChartRecord) :=
  λ w, (inr (default dflt (state w !! key)), w).

Definition state_setitem (key : string) (value : list ChartRecord) : M unit :=
  λ w, (inr tt, set_state (<[key := value]> (state w)) w).

Definition datetime_now : M datetime := λ w, (inr (clock w), w).

(** ** Pieces of [plot_tool] *)

(** [f"{v}"] *)
Definition format (v : json) : string :=
  match v with
  | JStr s => s
  | _ => str_of_value v
  end.

(** [v.replace('_', ' ').title()]: only a [str] has [replace]. *)
Definition replace_title (v : json) : exn + string :=
  match v with
  | JStr s => inr (str_title (PyStr.replace_char "_" " " s))
  | _ => inl (OtherException
                ("'" ++ type_name v ++ "' object has no attribute 'replace'"))
  end.

(** Lines 34 to 44: the chart function chosen by [chart_type]. *)
Definition create_chart (chart_type : string) (df : DataFrame)
    (x_col y_col : json) : exn + Figure :=
  let title := format y_col ++ " vs " ++ format x_col in
  if String.eqb chart_type "line" then px_line df x_col y_col title
  else if String.eqb chart_type "bar" then px_bar df x_col y_col title
  else if String.eqb chart_type "scatter" then px_scatter df x_col y_col title
  else if String.eqb chart_type "area" then px_area df x_col y_col title
  else px_line df x_col y_col title.

(** Lines 34 to 52: the chart and its layout. *)
Definition build_figure (chart_type : string) (df : DataFrame)
    (x_col y_col : json) : exn + Figure :=
  match create_chart chart_type df x_col y_col with
  | inl e => inl e
  | inr fig =>
      match replace_title x_col with
      | inl e => inl e
      | inr xaxis_title =>
          match replace_title y_col with
          | inl e => inl e
          | inr yaxis_title =>
              update_layout fig 16 xaxis_title yaxis_title "plotly_white"
          end
      end
  end.

(** Line 56 *)
Definition chart_filename_of (chart_type : string) (x_col y_col : json)
    (timestamp : string) : string :=
  chart_type ++ "_" ++ format y_col ++ "_vs_" ++ format x_col ++ "_"
  ++ timestamp ++ ".png".

(** ** [plot_tool] *)

(** The body of the [try] block. *)
Definition plot_tool_body (params chart_type save_folder : string)
    (tool_context : option ToolContext) : M Result :=
  let! data := lift (json_loads params) in
  let! df_data := lift (getitem data "df") in
  let! x_col := lift (getitem data "x_col") in
  let! y_col := lift (getitem data "y_col") in
  let! df := lift (pd_DataFrame df_data) in
  let! fig := lift (build_figure chart_type df x_col y_col) in
  let! now := datetime_now in
  let timestamp := strftime now in
  let filename := chart_filename_of chart_type x_col y_col timestamp in
  match tool_context with
  | Some _ =>
      let! img_bytes := lift (to_image fig "png" 800 600 2) in
      let artifact_part := Part_from_bytes img_bytes "image/png" in
      let! version := on_artifacts (save_artifact filename artifact_part) in
      let! charts := state_get "generated_charts" [] in
      let chart_info :=
        ChartRecord.Build filename chart_type x_col y_col timestamp version in
      let charts := (charts ++ [chart_info])%list in
      let! _ := state_setitem "generated_charts" charts in
      ret [ ("status", PyStr "success");
            ("artifact_name", PyStr filename);
            ("version", PyVersion version);
            ("chart_type", PyStr chart_type);
            ("message", PyStr ("Chart saved as artifact: " ++ filename)) ]
  | None =>
      let! _ := on_files (os_makedirs save_folder) in
      let filepath := os_path_join save_folder filename in
      let! _ := on_files (write_image fig filepath 800 600 2) in
      ret [ ("status", PyStr "success");
            ("filepath", PyStr filepath);
            ("chart_type", PyStr chart_type);
            ("message", PyStr ("Chart saved to " ++ filepath)) ]
  end.

(** The three [except] clauses. *)
Definition plot_tool_except (e : exn) : Result :=
  match e with
  | JSONDecodeError _ =>
      [ ("status", PyStr "error");
        ("message", PyStr "Invalid JSON format in params") ]
  | KeyError msg =>
      [ ("status", PyStr "error");
        ("message", PyStr ("Missing key in JSON data: " ++ msg)) ]
  | OtherException msg =>
      [ ("status", PyStr "error");
        ("message", PyStr ("Error generating chart: " ++ msg)) ]
  end.

Definition plot_tool (params chart_type save_folder : string)
    (tool_context : option ToolContext) : World → Result * World :=
  try_except (plot_tool_body params chart_type save_folder tool_context)
             plot_tool_except.

(** A call that leaves out [chart_type] or [save_folder] takes the
    defaults of the signature. *)
Definition plot_tool_call (params : string) (chart_type save_folder : option string)
    (tool_context : option ToolContext) : World → Result * World :=
  plot_tool params (default "line" chart_type) (default "charts" save_folder)
            tool_context.

(** ** [list_charts_tool] *)

Definition generic_except (what : string) (e : exn) : Result :=
  match e with
  | JSONDecodeError msg | KeyError msg | OtherException msg =>
      [ ("status", PyStr "error"); ("message", PyStr (what ++ msg)) ]
  end.

Definition list_charts_tool (tool_context : option ToolContext)
    : World → Result * World :=
  match tool_context with
  | None => λ w,
      ([ ("status", PyStr "error");
         ("message", PyStr "ToolContext required for artifact access") ], w)
  | Some _ =>
      try_except
        (let! artifacts := on_artifacts list_artifacts in
         let chart_artifacts := List.filter (λ f, PyStr.endswith f ".png") artifacts in
         let! charts_history := state_get "generated_charts" [] in
         ret [ ("status", PyStr "success");
               ("chart_artifacts", PyNames chart_artifacts);
               ("charts_history", PyCharts charts_history);
               ("total_charts", PyInt (List.length chart_artifacts));
               ("message", PyStr ("Found " ++ PyStr.of_nat (List.length chart_artifacts)
                                  ++ " chart artifacts")) ])
        (generic_except "Error listing charts: ")
  end.

(** ** [load_chart_tool] *)

(** [chart_part.inline_data.mime_type if hasattr(chart_part, 'inline_data')
    else "image/png"] *)
Definition mime_type_of (chart_part : Part) : exn + pyval Version :=
  match inline_data chart_part with
  | Missing => inr (PyStr "image/png")
  | Present (Some blob) =>
      inr (match mime_type blob with Some m => PyStr m | None => PyNone end)
  | Present None =>
      inl (OtherException "'NoneType' object has no attribute 'mime_type'")
  end.

(** The [for] loop with its [break]: the first record of the name. *)
Definition find_chart (chart_filename : string) (charts_history : list ChartRecord)
    : option ChartRecord :=
  List.find (λ chart, String.eqb (ChartRecord.filename chart) chart_filename)
            charts_history.

Definition load_chart_tool (chart_filename : string)
    (tool_context : option ToolContext) : World → Result * World :=
  match tool_context with
  | None => λ w,
      ([ ("status", PyStr "error");
         ("message", PyStr "ToolContext required for artifact access") ], w)
  | Some _ =>
      try_except
        (let! chart_part := on_artifacts (load_artifact chart_filename) in
         match chart_part with
         | None =>
             ret [ ("status", PyStr "error");
                   ("message", PyStr ("Chart '" ++ chart_filename
                                      ++ "' not found in artifacts")) ]
         | Some chart_part =>
             let! charts_history := state_get "generated_charts" [] in
             let chart_info := find_chart chart_filename charts_history in
             let! mime := lift (mime_type_of chart_part) in
             ret [ ("status", PyStr "success");
                   ("chart_filename", PyStr chart_filename);
                   ("chart_info", match chart_info with
                                  | Some chart => PyChart chart
                                  | None => PyNone
                                  end);
                   ("mime_type", mime);
                   ("message", PyStr ("Chart '" ++ chart_filename
                                      ++ "' loaded successfully")) ]
         end)
        (generic_except "Error loading chart: ")
  end.

(** ** [delete_chart_tool] *)

Definition delete_chart_tool (chart_filename : string)
    (tool_context : option ToolContext) : World → Result * World :=
  match tool_context with
  | None => λ w,
      ([ ("status", PyStr "error");
         ("message", PyStr "ToolContext required for state management") ], w)
  | Some _ =>
      try_except
        (let! charts_history := state_get "generated_charts" [] in
         let updated_charts :=
           List.filter (λ chart, negb (String.eqb (ChartRecord.filename chart)
                                                   chart_filename))
                       charts_history in
         if (List.length updated_charts =? List.length charts_history)%nat then
           ret [ ("status", PyStr "warning");
                 ("message", PyStr ("Chart '" ++ chart_filename
                                    ++ "' was not found in tracking history")) ]
         else
           let! _ := state_setitem "generated_charts" updated_charts in
           ret [ ("status", PyStr "success");
                 ("message", PyStr ("Chart '" ++ chart_filename
                                    ++ "' removed from tracking. "
                                    ++ PyStr.of_nat (List.length charts_history
                                                     - List.length updated_charts)
                                    ++ " chart(s) removed.")) ])
        (generic_except "Error deleting chart: ")
  end.

(** The [status] of a result. *)
Definition status (r : Result) : option string :=
  match assoc "status" r with
  | Some (PyStr s) => Some s
  | _ => None
  end.

End Tools.

Arguments World {os adk}.
Arguments Build_World {os adk}.

(** ** In-memory collaborators

    Small executable stand-ins for the collaborators, on which the tools
    can be run: a reader for the JSON of the examples, frames and figures
    as plain records, an artifact store that keeps every saved version, and
    a file system that records the directories made and the files written. *)

Module Fake.

Definition dquote : ascii := "034"%char.

(** [q s] is [s] between double quotes. *)
Definition q (s : string) : string :=
  String dquote (s ++ String dquote EmptyString).

(** *** A reader for a subset of JSON

    Objects, arrays, strings without escapes, integers and the three
    literals, with JSON's white space.  Text outside the subset is
    rejected. *)

Definition is_ws (c : ascii) : bool :=
  let n := N_of_ascii c in
  (n =? 32)%N || (n =? 9)%N || (n =? 10)%N || (n =? 13)%N.

Fixpoint skip_ws (s : string) : string :=
  match s with
  | String c rest => if is_ws c then skip_ws rest else s
  | EmptyString => s
  end.

(** The text up to the closing quote, and what follows it. *)
Fixpoint read_string (s : string) : option (string * string) :=
  match s with
  | EmptyString => None
  | String c rest =>
      if Ascii.eqb c dquote then Some (EmptyString, rest)
      else if Ascii.eqb c "\"%char then None
      else if (N_of_ascii c <? 32)%N then None
      else match read_string rest with
           | Some (t, rest') => Some (String c t, rest')
           | None => None
           end
  end.

Fixpoint read_digits (acc : N) (s : string) : N * string :=
  match s with
  | String c rest =>
      if PyStr.is_digit c then read_digits (10 * acc + (N_of_ascii c - 48)) rest
      else (acc, s)
  | EmptyString => (acc, s)
  end.

(** [0] or a digit from 1 to 9 followed by digits. *)
Definition read_nat (s : string) : option (N * string) :=
  match s with
  | String c rest =>
      if Ascii.eqb c "0" then
        match rest with
        | String d _ => if PyStr.is_digit d then None else Some (0%N, rest)
        | EmptyString => Some (0%N, rest)
        end
      else if PyStr.is_digit c then Some (read_digits 0 s)
      else None
  | EmptyString => None
  end.

Definition strip_prefix (p s : string) : option string :=
  if String.prefix p s
  then Some (String.substring (String.length p) (String.length s - String.length p) s)
  else None.

(** [d[k] = v] on a dictionary kept in insertion order. *)
Fixpoint dict_set (k : string) (v : json) (d : list (string * json))
    : list (string * json) :=
  match d with
  | [] => [(k, v)]
  | (k', v') :: rest =>
      if String.eqb k' k then (k', v) :: rest else (k', v') :: dict_set k v rest
  end.

Fixpoint read_value (fuel : nat) (s : string) {struct fuel} : option (json * string) :=
  match fuel with
  | O => None
  | S fuel =>
      match skip_ws s with
      | EmptyString => None
      | String c rest as s' =>
          if Ascii.eqb c dquote then
            match read_string rest with
            | Some (t, rest') => Some (JStr t, rest')
            | None => None
            end
          else if Ascii.eqb c "[" then
            match skip_ws rest with
            | String "]" rest' => Some (JArr [], rest')
            | _ => match read_items fuel rest with
                   | Some (items, rest') => Some (JArr items, rest')
                   | None => None
                   end
            end
          else if Ascii.eqb c "{" then
            match skip_ws rest with
            | String "}" rest' => Some (JObj [], rest')
            | _ => match read_members fuel [] rest with
                   | Some (fields, rest') => Some (JObj fields, rest')
                   | None => None
                   end
            end
          else if Ascii.eqb c "-" then
            match read_nat rest with
            | Some (n, rest') => Some (JInt (- Z.of_N n), rest')
            | None => None
            end
          else
            match strip_prefix "null" s', strip_prefix "true" s',
                  strip_prefix "false" s' with
            | Some rest', _, _ => Some (JNull, rest')
            | _, Some rest', _ => Some (JBool true, rest')
            | _, _, Some rest' => Some (JBool false, rest')
            | _, _, _ =>
                match read_nat s' with
                | Some (n, rest') => Some (JInt (Z.of_N n), rest')
                | None => None
                end
            end
      end
  end
with read_items (fuel : nat) (s : string) {struct fuel} : option (list json * string) :=
  match fuel with
  | O => None
  | S fuel =>
      match read_value fuel s with
      | None => None
      | Some (v, rest) =>
          match skip_ws rest with
          | String "]" rest' => Some ([v], rest')
          | String "," rest' =>
              match read_items fuel rest' with
              | Some (vs, rest'') => Some (v :: vs, rest'')
              | None => None
              end
          | _ => None
          end
      end
  end
with read_members (fuel : nat) (acc : list (string * json)) (s : string)
    {struct fuel} : option (list (string * json) * string) :=
  match fuel with
  | O => None
  | S fuel =>
      match skip_ws s with
      | String c rest =>
          if Ascii.eqb c dquote then
            match read_string rest with
            | None => None
            | Some (k, rest1) =>
                match skip_ws rest1 with
                | String ":" rest2 =>
                    match read_value fuel rest2 with
                    | None => None
                    | Some (v, rest3) =>
                        let acc := dict_set k v acc in
                        match skip_ws rest3 with
                        | String "}" rest4 => Some (acc, rest4)
                        | String "," rest4 => read_members fuel acc rest4
                        | _ => None
                        end
                    end
                | _ => None
                end
            end
          else None
      | EmptyString => None
      end
  end.

Definition read_json (s : string) : exn + json :=
  match read_value (S (String.length s)) s with
  | Some (v, rest) =>
      match skip_ws rest with
      | EmptyString => inr v
      | _ => inl (JSONDecodeError "Extra data")
      end
  | None => inl (JSONDecodeError "Expecting value")
  end.

(** *** The Python runtime *)

Definition is_upper (c : ascii) : bool :=
  let n := N_of_ascii c in (65 <=? n)%N && (n <=? 90)%N.
Definition is_lower (c : ascii) : bool :=
  let n := N_of_ascii c in (97 <=? n)%N && (n <=? 122)%N.
Definition to_upper (c : ascii) : ascii :=
  if is_lower c then ascii_of_N (N_of_ascii c - 32) else c.
Definition to_lower (c : ascii) : ascii :=
  if is_upper c then ascii_of_N (N_of_ascii c + 32) else c.

(** [str.title] on ASCII text: a letter that follows a letter is put in
    lower case, any other letter in upper case. *)
Fixpoint title_from (previous_is_cased : bool) (s : string) : string :=
  match s with
  | EmptyString => EmptyString
  | String c rest =>
      if is_upper c || is_lower c
      then String (if previous_is_cased then to_lower c else to_upper c)
                  (title_from true rest)
      else String c (title_from false rest)
  end.

Definition str_of_int (n : Z) : string :=
  match n with
  | Zneg p => "-" ++ PyStr.of_nat (Pos.to_nat p)
  | _ => PyStr.of_nat (Z.to_nat n)
  end.

(** [repr] of a value whose strings need no escape. *)
Fixpoint repr (v : json) : string :=
  match v with
  | JNull => "None"
  | JBool true => "True"
  | JBool false => "False"
  | JInt n => str_of_int n
  | JFloat lexeme => lexeme
  | JStr s => "'" ++ s ++ "'"
  | JArr items =>
      "[" ++ (fix go (l : list json) : string :=
                match l with
                | [] => EmptyString
                | [x] => repr x
                | x :: rest => repr x ++ ", " ++ go rest
                end) items ++ "]"
  | JObj fields =>
      "{" ++ (fix go (l : list (string * json)) : string :=
                match l with
                | [] => EmptyString
                | [(k, x)] => "'" ++ k ++ "': " ++ repr x
                | (k, x) :: rest => "'" ++ k ++ "': " ++ repr x ++ ", " ++ go rest
                end) fields ++ "}"
  end.

#[local] Instance python : Python := {|
  json_loads := read_json;
  str_of_value := repr;
  str_title := title_from false
|}.

(** *** The operating system *)

Record MemFS := {
  dirs : list string;
  written : list (string * list byte)
}.

Definition mem (x : string) (l : list string) : bool :=
  List.existsb (String.eqb x) l.

Definition makedirs (path : string) (fs : MemFS) : (exn + unit) * MemFS :=
  if String.eqb path EmptyString then
    (inl (OtherException "[Errno 2] No such file or directory: ''"), fs)
  else if mem path (List.map fst (written fs)) then
    (inl (OtherException ("[Errno 17] File exists: '" ++ path ++ "'")), fs)
  else if mem path (dirs fs) then (inr tt, fs)
  else (inr tt, {| dirs := path :: dirs fs; written := written fs |}).

#[local] Instance os : OS := {|
  FS := MemFS;
  os_makedirs := makedirs
|}.

(** *** pandas and plotly

    A frame is built from a mapping of column names to lists of equal
    length.  A chart function rejects a column name that the frame does
    not have with the [ValueError] of plotly express. *)

Fixpoint frame_columns (fields : list (string * json))
    : exn + list (string * list json) :=
  match fields with
  | [] => inr []
  | (k, JArr items) :: rest =>
      match frame_columns rest with
      | inr cols =>
          match cols with
          | (_, items') :: _ =>
              if (List.length items =? List.length items')%nat
              then inr ((k, items) :: cols)
              else inl (OtherException "All arrays must be of the same length")
          | [] => inr [(k, items)]
          end
      | inl e => inl e
      end
  | (_, _) :: _ =>
      inl (OtherException "If using all scalar values, you must pass an index")
  end.

Definition data_frame (df_data : json) : exn + list (string * list json) :=
  match df_data with
  | JObj fields => frame_columns fields
  | _ => inl (OtherException "DataFrame constructor not properly called!")
  end.

Record figure := {
  kind : string;
  frame : list (string * list json);
  fig_x : json;
  fig_y : json;
  fig_title : string;
  layout : option (N * string * string * string)
}.

Definition text_of (v : json) : string :=
  match v with JStr s => s | _ => repr v end.

(** The check plotly express makes on an argument that names a column. *)
Definition check_column (field : string) (argument : json)
    (df : list (string * list json)) : option exn :=
  match argument with
  | JArr _ | JObj _ => None
  | _ =>
      if mem (text_of argument) (List.map fst df) then None
      else Some (OtherException
                   ("Value of '" ++ field
                    ++ "' is not the name of a column in 'data_frame'. Expected one of "
                    ++ repr (JArr (List.map JStr (List.map fst df)))
                    ++ " but received: " ++ text_of argument))
  end.

Definition px (kind : string) (df : list (string * list json)) (x y : json)
    (title : string) : exn + figure :=
  match check_column "x" x df with
  | Some e => inl e
  | None =>
      match check_column "y" y df with
      | Some e => inl e
      | None => inr {| kind := kind; frame := df; fig_x := x; fig_y := y;
                       fig_title := title; layout := None |}
      end
  end.

Definition with_layout (fig : figure) (title_font_size : N)
    (xaxis_title yaxis_title template : string) : exn + figure :=
  inr {| kind := kind fig; frame := frame fig; fig_x := fig_x fig;
         fig_y := fig_y fig; fig_title := fig_title fig;
         layout := Some (title_font_size, xaxis_title, yaxis_title, template) |}.

(** The eight bytes every PNG file starts with. *)
Definition png_signature : list byte :=
  [x89; x50; x4e; x47; x0d; x0a; x1a; x0a].

Definition image_of (fig : figure) (format : string) (width height scale : N)
    : exn + list byte :=
  if String.eqb format "png" then inr png_signature
  else inl (OtherException ("Invalid format '" ++ format ++ "'")).

Definition write_file (fig : figure) (path : string) (width height scale : N)
    (fs : MemFS) : (exn + unit) * MemFS :=
  (inr tt, {| dirs := dirs fs; written := (path, png_signature) :: written fs |}).

#[local] Instance chartlib : ChartLib := {|
  DataFrame := list (string * list json);
  Figure := figure;
  pd_DataFrame := data_frame;
  columns := λ df, List.map fst df;
  px_line := px "line";
  px_bar := px "bar";
  px_scatter := px "scatter";
  px_area := px "area";
  update_layout := with_layout;
  to_image := image_of;
  write_image := write_file
|}.

(** *** The artifact service

    Every saved part is kept, oldest first; the version of a part is the
    number of parts saved under its name before it. *)

Definition saved_under (name : string) (store : list (string * Part)) : list Part :=
  List.map snd (List.filter (λ entry, String.eqb (fst entry) name) store).

Definition save (name : string) (part : Part) (store : list (string * Part))
    : (exn + nat) * list (string * Part) :=
  (inr (List.length (saved_under name store)), (store ++ [(name, part)])%list).

Fixpoint distinct (names : list string) : list string :=
  match names with
  | [] => []
  | n :: rest => if mem n rest then distinct rest else n :: distinct rest
  end.

Definition list_names (store : list (string * Part))
    : (exn + list string) * list (string * Part) :=
  (inr (distinct (List.map fst store)), store).

Definition load (name : string) (store : list (string * Part))
    : (exn + option Part) * list (string * Part) :=
  (inr (List.last (List.map Some (saved_under name store)) None), store).

#[local] Instance adk : ADK := {|
  Version := nat;
  ArtStore := list (string * Part);
  save_artifact := save;
  list_artifacts := list_names;
  load_artifact := load
|}.

(** An artifact service that was never configured: every call raises. *)
#[local] Instance adk_unconfigured : ADK | 100 := {|
  Version := nat;
  ArtStore := unit;
  save_artifact := λ _ _ s, (inl (OtherException "Artifact service is not initialized."), s);
  list_artifacts := λ s, (inl (OtherException "Artifact service is not initialized."), s);
  load_artifact := λ _ s, (inl (OtherException "Artifact service is not initialized."), s)
|}.

(** *** Sample inputs *)

(** [{"df": {"day": [1, 2, 3], "sales": [10, 20, 15]},
     "x_col": "day", "y_col": "sales"}] where [y] is the value of y_col *)
Definition params_with (x y : string) : string :=
  "{" ++ q "df" ++ ": {" ++ q "day" ++ ": [1, 2, 3], " ++ q "sales"
  ++ ": [10, 20, 15]}, " ++ q "x_col" ++ ": " ++ q x ++ ", " ++ q "y_col"
  ++ ": " ++ q y ++ "}".

Definition sample_params : string := params_with "day" "sales".

Definition sample_clock : datetime :=
  {| year := 2024; month := 3; day := 9; hour := 14; minute := 5; second := 7 |}.

Definition empty_world : World :=
  Build_World [] ∅ {| dirs := []; written := [] |} sample_clock.

(** The same world for a session without an artifact service. *)
Definition unconfigured_world : World (adk := adk_unconfigured) :=
  Build_World (adk := adk_unconfigured) tt ∅ {| dirs := []; written := [] |}
              sample_clock.

(** The world after one bar chart of the sample was drawn with a context. *)
Definition sample_record : ChartRecord.t nat :=
  ChartRecord.Build "bar_sales_vs_day_20240309_140507.png" "bar" (JStr "day")
                    (JStr "sales") "20240309_140507" 0%nat.

Definition world_with_chart : World :=
  Build_World
    [("bar_sales_vs_day_20240309_140507.png",
      Part_from_bytes png_signature "image/png")]
    {["generated_charts" := [sample_record]]}
    {| dirs := []; written := [] |} sample_clock.

(** A text part, as [Part.from_text] makes it: no [inline_data]. *)
Definition text_part : Part := {| inline_data := Present None |}.

Definition world_with_note : World :=
  Build_World [("notes.png", text_part)] ∅ {| dirs := []; written := [] |}
              sample_clock.

(** The chart library on a full disk: [write_image] raises and writes
    nothing. *)
Definition write_file_disk_full (fig : figure) (path : string)
    (width height scale : N) (fs : MemFS) : (exn + unit) * MemFS :=
  (inl (OtherException "[Errno 28] No space left on device"), fs).

#[local] Instance chartlib_disk_full : ChartLib | 100 := {|
  DataFrame := list (string * list json);
  Figure := figure;
  pd_DataFrame := data_frame;
  columns := λ df, List.map fst df;
  px_line := px "line";
  px_bar := px "bar";
  px_scatter := px "scatter";
  px_area := px "area";
  update_layout := with_layout;
  to_image := image_of;
  write_image := write_file_disk_full
|}.





(** Parameters whose two columns differ in length. *)
Definition ragged_params : string :=
  "{" ++ q "df" ++ ": {" ++ q "day" ++ ": [1, 2, 3], " ++ q "sales"
  ++ ": [10, 20]}, " ++ q "x_col" ++ ": " ++ q "day" ++ ", " ++ q "y_col"
  ++ ": " ++ q "sales" ++ "}".

(** Parameters whose [x_col] is a number. *)
Definition numeric_column_params : string :=
  "{" ++ q "df" ++ ": {" ++ q "day" ++ ": [1, 2, 3], " ++ q "sales"
  ++ ": [10, 20, 15]}, " ++ q "x_col" ++ ": 7, " ++ q "y_col"
  ++ ": " ++ q "sales" ++ "}".

End Fake.

(** * Properties *)

Section Properties.
Context {py : Python} {os : OS} {lib : ChartLib} {adk : ADK}.

Abbreviation Result := (list (string * pyval Version)).

Implicit Types (w : World) (tool_context : option ToolContext).
Implicit Types (params chart_type save_folder chart_filename : string).

(** The list tracked under ["generated_charts"], empty when the key is
    not set. *)
Definition tracked (w : World) : list (ChartRecord.t Version) :=
  default [] (state w !! "generated_charts").

Definition error_result (message : string) : Result :=
  [ ("status", PyStr "error"); ("message", PyStr message) ].

(** The first of the keys [plot_tool] reads that an object lacks. *)
Definition first_missing_key (fields : list (string * json)) : option string :=
  List.find (λ key, match assoc key fields with Some _ => false | None => true end)
            ["df"; "x_col"; "y_col"].

(** The value names a column that the frame does not have. *)
Definition absent_column (df : DataFrame) (v : json) : Prop :=
  ∃ name, v = JStr name ∧ name ∉ columns df.

(** The chart library turns down a column name that the frame lacks with
    an exception that is not a [KeyError]; plotly express raises
    [ValueError]. *)
Definition rejects_absent_columns : Prop :=
  ∀ df x y title px,
    absent_column df x ∨ absent_column df y →
    px ∈ [px_line; px_bar; px_scatter; px_area] →
    ∃ msg, px df x y title = inl (OtherException msg).

(** The results of a successful [plot_tool], with and without a context. *)
Definition artifact_result (filename : string) (version : Version)
    (chart_type : string) : Result :=
  [ ("status", PyStr "success");
    ("artifact_name", PyStr filename);
    ("version", PyVersion version);
    ("chart_type", PyStr chart_type);
    ("message", PyStr ("Chart saved as artifact: " ++ filename)) ].

Definition file_result (filepath chart_type : string) : Result :=
  [ ("status", PyStr "success");
    ("filepath", PyStr filepath);
    ("chart_type", PyStr chart_type);
    ("message", PyStr ("Chart saved to " ++ filepath)) ].

(** What a successful run of [plot_tool] went through: the parameters
    parsed to an object whose [x_col] and [y_col] are strings, the figure
    was built, and the image was stored under the file name of line 56,
    in the artifact store (with a record appended to the tracked list) or
    in [save_folder]. *)
Definition successful_run params chart_type save_folder tool_context
    (w : World) (r : Result) (w' : World) (x y filename : string) : Prop :=
  ∃ data df_data df fig,
    json_loads params = inr data
    ∧ getitem data "df" = inr df_data
    ∧ getitem data "x_col" = inr (JStr x)
    ∧ getitem data "y_col" = inr (JStr y)
    ∧ pd_DataFrame df_data = inr df
    ∧ build_figure chart_type df (JStr x) (JStr y) = inr fig
    ∧ filename
      = chart_type ++ "_" ++ y ++ "_vs_" ++ x ++ "_" ++ strftime (clock w)
        ++ ".png"
    ∧ match tool_context with
      | Some _ =>
          ∃ img_bytes version store',
            to_image fig "png" 800 600 2 = inr img_bytes
            ∧ save_artifact filename (Part_from_bytes img_bytes "image/png")
                            (artifacts w) = (inr version, store')
            ∧ r = artifact_result filename version chart_type
            ∧ w' = set_state
                     (<["generated_charts" :=
                          (tracked w
                           ++ [ChartRecord.Build filename chart_type (JStr x)
                                 (JStr y) (strftime (clock w)) version])%list]>
                        (state w))
                     (set_artifacts store' w)
      | None =>
          ∃ fs1 fs2,
            os_makedirs save_folder (files w) = (inr tt, fs1)
            ∧ write_image fig (os_path_join save_folder filename) 800 600 2 fs1
              = (inr tt, fs2)
            ∧ r = file_result (os_path_join save_folder filename) chart_type
            ∧ w' = set_files fs2 w
      end.

(** [chart["filename"] == chart_filename] *)
Definition named chart_filename (chart : ChartRecord.t Version) : bool :=
  String.eqb (ChartRecord.filename chart) chart_filename.

(** The results of [delete_chart_tool] with a context. *)
Definition not_tracked_result chart_filename : Result :=
  [ ("status", PyStr "warning");
    ("message", PyStr ("Chart '" ++ chart_filename
                       ++ "' was not found in tracking history")) ].

Definition removed_result chart_filename (count : nat) : Result :=
  [ ("status", PyStr "success");
    ("message", PyStr ("Chart '" ++ chart_filename ++ "' removed from tracking. "
                       ++ PyStr.of_nat count ++ " chart(s) removed.")) ].

(** The result of [load_chart_tool] when the artifact was found. *)
Definition loaded_result chart_filename
    (chart_info : option (ChartRecord.t Version)) (mime : pyval Version) : Result :=
  [ ("status", PyStr "success");
    ("chart_filename", PyStr chart_filename);
    ("chart_info", match chart_info with
                   | Some chart => PyChart chart
                   | None => PyNone
                   end);
    ("mime_type", mime);
    ("message", PyStr ("Chart '" ++ chart_filename ++ "' loaded successfully")) ].

(** The result of [list_charts_tool] when the artifacts were listed. *)
Definition listing_result (chart_artifacts : list string)
    (charts_history : list (ChartRecord.t Version)) : Result :=
  [ ("status", PyStr "success");
    ("chart_artifacts", PyNames chart_artifacts);
    ("charts_history", PyCharts charts_history);
    ("total_charts", PyInt (List.length chart_artifacts));
    ("message", PyStr ("Found " ++ PyStr.of_nat (List.length chart_artifacts)
                       ++ " chart artifacts")) ].



(** The text [str(e)] of an exception. *)
Definition exn_text (e : exn) : string :=
  match e with
  | JSONDecodeError msg | KeyError msg | OtherException msg => msg
  end.

(** A record as [plot_tool] writes it: the two columns are strings and the
    file name is made of the other fields. *)
Definition well_formed_record (c : ChartRecord.t Version) : Prop :=
  ∃ x y,
    ChartRecord.x_col c = JStr x
    ∧ ChartRecord.y_col c = JStr y
    ∧ ChartRecord.filename c
      = ChartRecord.chart_type c ++ "_" ++ y ++ "_vs_" ++ x ++ "_"
        ++ ChartRecord.timestamp c ++ ".png".

(** The number of tracked records of a file name. *)
Definition count_named chart_filename (history : list (ChartRecord.t Version))
    : nat :=
  List.length (List.filter (named chart_filename) history).

(** The three values a [status] field takes. *)
Definition valid_status (r : Result) : Prop :=
  status r = Some "success" ∨ status r = Some "error"
  ∨ status r = Some "warning".

(** Unfolding of the monadic plumbing, for proofs that run a tool. *)
Ltac unfold_tool :=
  unfold plot_tool_call, plot_tool, list_charts_tool, load_chart_tool,
    delete_chart_tool, plot_tool_body, try_except, bind, lift, ret,
    on_artifacts, on_files, state_get, state_setitem, datetime_now.

Ltac run_tool := unfold_tool; simpl.

(** Case analysis on every outcome of the collaborators a tool meets. *)
Ltac destruct_outcomes :=
  repeat match goal with
         | |- context [match ?x with _ => _ end] =>
             lazymatch x with
             | context [match _ with _ => _ end] => fail
             | _ => destruct x eqn:?
             end
         | |- context [if ?x then _ else _] =>
             lazymatch x with
             | context [match _ with _ => _ end] => fail
             | _ => destruct x eqn:?
             end
         end; simpl.

(** ** Malformed parameters *)


(** ** Missing keys and missing columns *)

(** X1: a JSON object without ['df'], ['x_col'] or ['y_col'] is what the
    [KeyError] clause reports: the message names the first key that is
    missing, in the order the keys are read, and the world is unchanged. *)
Lemma plot_tool_missing_json_key params chart_type save_folder tool_context w
    fields key :
  json_loads params = inr (JObj fields) →
  first_missing_key fields = Some key →
  plot_tool params chart_type save_folder tool_context w
  = (error_result ("Missing key in JSON data: '" ++ key ++ "'"), w).
Proof.
  intros Hloads Hkey. run_tool. rewrite Hloads. simpl.
  unfold first_missing_key in Hkey. simpl in Hkey.
  destruct (assoc "df" fields); [|by simplify_eq].
  destruct (assoc "x_col" fields); [|by simplify_eq].
  destruct (assoc "y_col" fields); by simplify_eq.
Qed.

Lemma create_chart_px chart_type df x_col y_col :
  ∃ px, px ∈ [px_line; px_bar; px_scatter; px_area]
        ∧ create_chart chart_type df x_col y_col
          = px df x_col y_col (format y_col ++ " vs " ++ format x_col).
Proof.
  unfold create_chart. repeat case_match; eexists; (split; [|done]); set_solver.
Qed.

(** Whatever exception the chart function raises goes through the
    [except] clauses, and nothing was stored before. *)
Lemma plot_tool_chart_rejected params chart_type save_folder tool_context w
    data df_data x_col y_col df e :
  json_loads params = inr data →
  getitem data "df" = inr df_data →
  getitem data "x_col" = inr x_col →
  getitem data "y_col" = inr y_col →
  pd_DataFrame df_data = inr df →
  create_chart chart_type df x_col y_col = inl e →
  plot_tool params chart_type save_folder tool_context w
  = (plot_tool_except e, w).
Proof.
  intros Hloads Hdf Hx Hy Hframe Hchart. run_tool.
  rewrite Hloads, Hdf, Hx, Hy, Hframe. unfold build_figure.
  by rewrite Hchart.
Qed.

(** C1, as the code has it: [plot_tool] makes no column check of its own.
    When [params] parse to an object with ['df'], ['x_col'] and ['y_col']
    and the value of [x_col] or [y_col] is not a column of the frame, the
    chart function of a library that rejects such a name with an exception
    other than [KeyError] is what fails; [plot_tool] returns the status
    [error] with the generic message [Error generating chart: ] followed
    by the text of the library, and the world is unchanged. *)
Theorem plot_tool_absent_column params chart_type save_folder tool_context w
    data df_data x_col y_col df :
  rejects_absent_columns →
  json_loads params = inr data →
  getitem data "df" = inr df_data →
  getitem data "x_col" = inr x_col →
  getitem data "y_col" = inr y_col →
  pd_DataFrame df_data = inr df →
  absent_column df x_col ∨ absent_column df y_col →
  ∃ msg,
    create_chart chart_type df x_col y_col = inl (OtherException msg)
    ∧ plot_tool params chart_type save_folder tool_context w
      = (error_result ("Error generating chart: " ++ msg), w).
Proof.
  intros Hlib Hloads Hdf Hx Hy Hframe Habsent.
  destruct (create_chart_px chart_type df x_col y_col) as (px & Hpx & Hchart).
  destruct (Hlib df x_col y_col (format y_col ++ " vs " ++ format x_col) px)
    as [msg Hmsg]; [done..|].
  rewrite <- Hchart in Hmsg. exists msg. split; [done|].
  by rewrite (plot_tool_chart_rejected _ _ _ _ _ _ _ _ _ _ _
                Hloads Hdf Hx Hy Hframe Hmsg).
Qed.

(** ** Successful runs of [plot_tool] *)

Lemma build_figure_strings chart_type df x_col y_col fig :
  build_figure chart_type df x_col y_col = inr fig →
  ∃ x y, x_col = JStr x ∧ y_col = JStr y.
Proof.
  unfold build_figure, replace_title. intros Hfig.
  destruct (create_chart _ _ _ _); [done|].
  destruct x_col; try done. destruct y_col; try done. eauto.
Qed.

Lemma plot_tool_successful_run params chart_type save_folder tool_context w r w'
    x y filename :
  successful_run params chart_type save_folder tool_context w r w' x y filename →
  plot_tool params chart_type save_folder tool_context w = (r, w').
Proof.
  intros (data & df_data & df & fig & Hloads & Hdf & Hx & Hy & Hframe & Hfig
          & -> & Hrest).
  run_tool. rewrite Hloads, Hdf, Hx, Hy, Hframe, Hfig.
  unfold chart_filename_of, format. destruct tool_context as [tc|].
  - destruct Hrest as (img & v & store' & Himg & Hsave & -> & ->).
    rewrite Himg, Hsave. reflexivity.
  - destruct Hrest as (fs1 & fs2 & Hdirs & Hwrite & -> & ->).
    rewrite Hdirs. simpl. rewrite Hwrite. reflexivity.
Qed.

Lemma plot_tool_success_inv params chart_type save_folder tool_context w r w' :
  plot_tool params chart_type save_folder tool_context w = (r, w') →
  status r = Some "success" →
  ∃ x y filename,
    successful_run params chart_type save_folder tool_context w r w' x y filename.
Proof.
  unfold successful_run. run_tool.
  destruct (json_loads params) as [e|data] eqn:Hloads;
    [intros [= <- <-]; by destruct e|].
  destruct (getitem data "df") as [e|df_data] eqn:Hdf;
    [intros [= <- <-]; by destruct e|].
  destruct (getitem data "x_col") as [e|x_col] eqn:Hx;
    [intros [= <- <-]; by destruct e|].
  destruct (getitem data "y_col") as [e|y_col] eqn:Hy;
    [intros [= <- <-]; by destruct e|].
  destruct (pd_DataFrame df_data) as [e|df] eqn:Hframe;
    [intros [= <- <-]; by destruct e|].
  destruct (build_figure chart_type df x_col y_col) as [e|fig] eqn:Hfig;
    [intros [= <- <-]; by destruct e|].
  destruct (build_figure_strings _ _ _ _ _ Hfig) as (x & y & -> & ->).
  unfold chart_filename_of, format. destruct tool_context as [tc|].
  - destruct (to_image fig "png" 800 600 2) as [e|img] eqn:Himg;
      [intros [= <- <-]; by destruct e|].
    destruct (save_artifact _ _ _) as [[e|v] store'] eqn:Hsave;
      [intros [= <- <-]; by destruct e|].
    intros [= <- <-] _. exists x, y. eexists. exists data, df_data, df, fig.
    split_and!; try done. by exists img, v, store'.
  - destruct (os_makedirs save_folder (files w)) as [[e|[]] fs1] eqn:Hdirs;
      [intros [= <- <-]; by destruct e|].
    simpl.
    destruct (write_image _ _ _ _ _ _) as [[e|[]] fs2] eqn:Hwrite;
      [intros [= <- <-]; by destruct e|].
    intros [= <- <-] _. exists x, y. eexists. exists data, df_data, df, fig.
    split_and!; try done. by exists fs1, fs2.
Qed.

(** C5: a run of [plot_tool] with a context that reports [success] has
    stored the image in the artifact store, which returned [version], and
    has written back under ["generated_charts"] the list tracked before
    followed by exactly one new record, made of the file name, the chart
    type, the two column names, the timestamp and that version; the other
    keys of the state are as before, and the result carries
    [artifact_name], [version] and [chart_type]. *)
Theorem plot_tool_appends_record params chart_type save_folder tc w r w' :
  plot_tool params chart_type save_folder (Some tc) w = (r, w') →
  status r = Some "success" →
  ∃ x y filename version img_bytes,
    filename = chart_type ++ "_" ++ y ++ "_vs_" ++ x ++ "_"
               ++ strftime (clock w) ++ ".png"
    ∧ save_artifact filename (Part_from_bytes img_bytes "image/png")
                    (artifacts w) = (inr version, artifacts w')
    ∧ state w' !! "generated_charts"
      = Some (tracked w
              ++ [ChartRecord.Build filename chart_type (JStr x) (JStr y)
                    (strftime (clock w)) version])%list
    ∧ (∀ key, key ≠ "generated_charts" → state w' !! key = state w !! key)
    ∧ files w' = files w
    ∧ r = [ ("status", PyStr "success");
            ("artifact_name", PyStr filename);
            ("version", PyVersion version);
            ("chart_type", PyStr chart_type);
            ("message", PyStr ("Chart saved as artifact: " ++ filename)) ].
Proof.
  intros Hrun Hsuccess.
  destruct (plot_tool_success_inv _ _ _ _ _ _ _ Hrun Hsuccess)
    as (x & y & filename & data & df_data & df & fig & _ & _ & _ & _ & _ & _
        & Hname & img & version & store' & _ & Hsave & -> & ->).
  exists x, y, filename, version, img. simpl. split_and!; try done.
  - by rewrite lookup_insert_eq.
  - intros key Hkey. by rewrite lookup_insert_ne.
Qed.

(** [strftime] writes fifteen characters that read back as the time. *)
Lemma digit_value_digit n : (n < 10)%N → digit_value (PyStr.digit n) = Some n.
Proof.
  intros Hn. unfold digit_value, PyStr.digit, PyStr.is_digit.
  rewrite N.mod_small by done.
  rewrite N_ascii_embedding by lia.
  replace (48 + n - 48)%N with n by lia.
  by rewrite (proj2 (N.leb_le _ _)), (proj2 (N.leb_le _ _)) by lia.
Qed.

Lemma read_zfill2 n :
  (n < 100)%N → read_number 0 (list_ascii_of_string (PyStr.zfill2 n)) = Some n.
Proof.
  intros Hn. unfold PyStr.zfill2. simpl.
  assert (n / 10 < 10)%N by (apply N.Div0.div_lt_upper_bound; lia).
  assert (PyStr.digit n = PyStr.digit (n mod 10)) as ->
    by (unfold PyStr.digit; by rewrite N.Div0.mod_mod).
  rewrite !digit_value_digit by (done || apply N.mod_lt; lia).
  f_equal. pose proof (N.div_mod n 10). lia.
Qed.

Lemma read_zfill4 n :
  (n < 10000)%N → read_number 0 (list_ascii_of_string (PyStr.zfill4 n)) = Some n.
Proof.
  intros Hn. unfold PyStr.zfill4, PyStr.zfill2. simpl.
  assert (n / 1000 < 10)%N by (apply N.Div0.div_lt_upper_bound; lia).
  assert (PyStr.digit (n / 100) = PyStr.digit ((n / 100) mod 10)) as ->
    by (unfold PyStr.digit; by rewrite N.Div0.mod_mod).
  assert (PyStr.digit (n / 10) = PyStr.digit ((n / 10) mod 10)) as ->
    by (unfold PyStr.digit; by rewrite N.Div0.mod_mod).
  assert (PyStr.digit n = PyStr.digit (n mod 10)) as ->
    by (unfold PyStr.digit; by rewrite N.Div0.mod_mod).
  rewrite !digit_value_digit by (done || apply N.mod_lt; lia).
  f_equal.
  pose proof (N.div_mod n 10). pose proof (N.div_mod (n / 10) 10).
  pose proof (N.div_mod (n / 100) 10).
  replace (n / 100)%N with (n / 10 / 10)%N in * by (rewrite N.Div0.div_div; done).
  replace (n / 1000)%N with (n / 10 / 10 / 10)%N in *
    by (rewrite !N.Div0.div_div; done).
  lia.
Qed.

Lemma strftime_length d : String.length (strftime d) = 15.
Proof. reflexivity. Qed.

Lemma parse_timestamp_strftime d :
  valid_datetime d → parse_timestamp (strftime d) = Some d.
Proof.
  intros (Hy & Hm & Hd & Hh & Hmi & Hs).
  pose proof (read_zfill4 (year d)) as Ry.
  pose proof (read_zfill2 (month d)) as Rm.
  pose proof (read_zfill2 (day d)) as Rd.
  pose proof (read_zfill2 (hour d)) as Rh.
  pose proof (read_zfill2 (minute d)) as Rmi.
  pose proof (read_zfill2 (second d)) as Rs.
  unfold parse_timestamp, strftime, PyStr.zfill4, PyStr.zfill2 in *.
  lazy beta iota zeta fix delta [String.append list_ascii_of_string] in *.
  rewrite Ry, Rm, Rd, Rh, Rmi, Rs by lia. by destruct d.
Qed.

(** C6: a run of [plot_tool] that reports [success] names the chart
    [{chart_type}_{y_col}_vs_{x_col}_{timestamp}.png], where [x_col] and
    [y_col] are the strings of the parsed parameters and [timestamp] is the
    local time as [YYYYMMDD_HHMMSS]: fifteen characters that read back as
    the year, month, day, hour, minute and second of the clock.  With a
    context the name is returned as [artifact_name]; without one it is
    returned joined to [save_folder] as [filepath]. *)
Theorem plot_tool_filename params chart_type save_folder tool_context w r w' :
  valid_datetime (clock w) →
  plot_tool params chart_type save_folder tool_context w = (r, w') →
  status r = Some "success" →
  ∃ data x y timestamp,
    json_loads params = inr data
    ∧ getitem data "x_col" = inr (JStr x)
    ∧ getitem data "y_col" = inr (JStr y)
    ∧ timestamp = strftime (clock w)
    ∧ String.length timestamp = 15
    ∧ parse_timestamp timestamp = Some (clock w)
    ∧ let filename :=
        chart_type ++ "_" ++ y ++ "_vs_" ++ x ++ "_" ++ timestamp ++ ".png" in
      match tool_context with
      | Some _ => assoc "artifact_name" r = Some (PyStr filename)
      | None => assoc "filepath" r
                = Some (PyStr (os_path_join save_folder filename))
      end.
Proof.
  intros Hclock Hrun Hsuccess.
  destruct (plot_tool_success_inv _ _ _ _ _ _ _ Hrun Hsuccess)
    as (x & y & filename & data & df_data & df & fig & Hloads & _ & Hx & Hy
        & _ & _ & -> & Hrest).
  exists data, x, y, (strftime (clock w)).
  split_and!; try done; [by apply parse_timestamp_strftime|].
  destruct tool_context.
  - by destruct Hrest as (? & ? & ? & _ & _ & -> & _).
  - by destruct Hrest as (? & ? & _ & _ & -> & _).
Qed.

(** ** The chart type *)

(** C7: a [chart_type] other than [line], [bar], [scatter] and [area] is
    drawn by [px.line]: the figure is the one [chart_type = "line"] builds
    from the same frame and columns, with the same layout.  A call that
    leaves [chart_type] out is a call with ["line"]. *)
Theorem unknown_chart_type_renders_line chart_type df x_col y_col :
  chart_type ∉ ["line"; "bar"; "scatter"; "area"] →
  create_chart chart_type df x_col y_col
  = px_line df x_col y_col (format y_col ++ " vs " ++ format x_col)
  ∧ build_figure chart_type df x_col y_col = build_figure "line" df x_col y_col
  ∧ ∀ params (folder : option string) tool_context,
      plot_tool_call params None folder tool_context
      = plot_tool params "line" (default "charts" folder) tool_context.
Proof.
  intros Hother.
  assert (create_chart chart_type df x_col y_col
          = px_line df x_col y_col (format y_col ++ " vs " ++ format x_col))
    as Hchart.
  { unfold create_chart.
    destruct (String.eqb_spec chart_type "line"); [set_solver|].
    destruct (String.eqb_spec chart_type "bar"); [set_solver|].
    destruct (String.eqb_spec chart_type "scatter"); [set_solver|].
    destruct (String.eqb_spec chart_type "area"); [set_solver|]. done. }
  split_and!; [done| |done].
  unfold build_figure. by rewrite Hchart.
Qed.

(** ** Calls without a context *)

(** Without a context, [list_charts_tool], [load_chart_tool] and
    [delete_chart_tool] return an [error] that asks for the context and
    touch nothing.  [plot_tool] takes the file path instead: once the
    figure is built, and when [os.makedirs] and [write_image] both return
    normally, it returns [success] with the path [save_folder/filename],
    and the file system is the one the two calls left. *)
Theorem tools_without_context params chart_type save_folder chart_filename w
    data df_data x_col y_col df fig fs1 fs2 :
  json_loads params = inr data →
  getitem data "df" = inr df_data →
  getitem data "x_col" = inr x_col →
  getitem data "y_col" = inr y_col →
  pd_DataFrame df_data = inr df →
  build_figure chart_type df x_col y_col = inr fig →
  let filename :=
    chart_filename_of chart_type x_col y_col (strftime (clock w)) in
  let filepath := os_path_join save_folder filename in
  os_makedirs save_folder (files w) = (inr tt, fs1) →
  write_image fig filepath 800 600 2 fs1 = (inr tt, fs2) →
  list_charts_tool None w
  = (error_result "ToolContext required for artifact access", w)
  ∧ load_chart_tool chart_filename None w
    = (error_result "ToolContext required for artifact access", w)
  ∧ delete_chart_tool chart_filename None w
    = (error_result "ToolContext required for state management", w)
  ∧ plot_tool params chart_type save_folder None w
    = ([ ("status", PyStr "success");
         ("filepath", PyStr filepath);
         ("chart_type", PyStr chart_type);
         ("message", PyStr ("Chart saved to " ++ filepath)) ],
       set_files fs2 w).
Proof.
  intros Hloads Hdf Hx Hy Hframe Hfig filename filepath Hdirs Hwrite.
  split_and!; try done.
  run_tool. rewrite Hloads, Hdf, Hx, Hy, Hframe, Hfig, Hdirs. simpl.
  fold filename. fold filepath. by rewrite Hwrite.
Qed.

(** ** Deleting a chart from the tracked list *)

Lemma filter_split_length {A} (f : A → bool) (l : list A) :
  List.length l
  = (List.length (List.filter (λ a, negb (f a)) l)
     + List.length (List.filter f l))%nat.
Proof.
  induction l as [|a l IH]; [done|]. simpl. destruct (f a); simpl; lia.
Qed.

Lemma filter_sublist {A} (f : A → bool) (l : list A) :
  sublist (List.filter f l) l.
Proof.
  induction l as [|a l IH]; [constructor|]. simpl.
  destruct (f a); by constructor.
Qed.

Lemma named_true chart_filename chart :
  named chart_filename chart = true
  ↔ ChartRecord.filename chart = chart_filename.
Proof. apply String.eqb_eq. Qed.

(** C4: with a context, [delete_chart_tool] keeps exactly the tracked
    records whose [filename] differs from the input, in their order.  When
    no record has that name the result is the status [warning] and the
    world, the tracked list included, is unchanged; otherwise the kept list
    is written back under ["generated_charts"] and the result is [success]
    with the number of records that had the name. *)
Theorem delete_chart_tool_removes chart_filename tc w :
  let history := tracked w in
  let kept := List.filter (λ chart, negb (named chart_filename chart)) history in
  let count := List.length (List.filter (named chart_filename) history) in
  (∀ chart, chart ∈ kept
            ↔ chart ∈ history ∧ ChartRecord.filename chart ≠ chart_filename)
  ∧ sublist kept history
  ∧ List.length history = (List.length kept + count)%nat
  ∧ delete_chart_tool chart_filename (Some tc) w
    = match count with
      | O => (not_tracked_result chart_filename, w)
      | S _ =>
          (removed_result chart_filename count,
           set_state (<["generated_charts" := kept]> (state w)) w)
      end.
Proof.
  intros history kept count.
  assert (List.length history = (List.length kept + count)%nat) as Hlen
    by apply filter_split_length.
  split_and!; [|apply filter_sublist|done|].
  - intros chart. unfold kept. rewrite !list_elem_of_In, filter_In.
    rewrite negb_true_iff, <- not_true_iff_false, named_true. done.
  - run_tool. fold (tracked w). fold history.
    change (List.filter _ history) with kept.
    destruct count as [|n] eqn:Hcount.
    + rewrite (proj2 (Nat.eqb_eq _ _)) by lia. done.
    + rewrite (proj2 (Nat.eqb_neq _ _)) by lia.
      replace (List.length history - List.length kept)%nat with (S n) by lia.
      done.
Qed.

(** ** Loading a chart *)

Lemma find_chart_first chart_filename (history : list (ChartRecord.t Version)) :
  match find_chart chart_filename history with
  | Some chart =>
      ∃ before after,
        history = (before ++ chart :: after)%list
        ∧ ChartRecord.filename chart = chart_filename
        ∧ Forall (λ c, ChartRecord.filename c ≠ chart_filename) before
  | None => Forall (λ c, ChartRecord.filename c ≠ chart_filename) history
  end.
Proof.
  unfold find_chart. induction history as [|c history IH]; simpl; [constructor|].
  destruct (String.eqb_spec (ChartRecord.filename c) chart_filename) as [Heq|Hne].
  - by exists [], history.
  - destruct (List.find _ history) as [chart|].
    + destruct IH as (before & after & -> & Hname & Hbefore).
      exists (c :: before), after. split_and!; [done..|by constructor].
    + by constructor.
Qed.

(** X2: a part whose [inline_data] is [None] has no mime type to read:
    the attribute access raises, and [load_chart_tool] answers [error]
    although the artifact is stored. *)
Lemma load_chart_tool_without_blob chart_filename tc w chart_part store' :
  load_artifact chart_filename (artifacts w) = (inr (Some chart_part), store') →
  inline_data chart_part = Present None →
  load_chart_tool chart_filename (Some tc) w
  = (error_result
       ("Error loading chart: "
        ++ "'NoneType' object has no attribute 'mime_type'"),
     set_artifacts store' w).
Proof.
  intros Hload Hnone. run_tool. rewrite Hload. simpl.
  unfold mime_type_of. by rewrite Hnone.
Qed.

(** C8: with a context, when the artifact store has nothing under the
    name, [load_chart_tool] returns the not-found result, a value and not
    an exception, without [chart_info].  When the store returns a part
    whose mime type can be read (it carries a blob, or is an object
    without [inline_data]), the result is [success] with, as [chart_info],
    the first tracked record of that file name, or [None] when no tracked
    record has it. *)
Theorem load_chart_tool_lookup chart_filename tc w :
  (∀ store',
     load_artifact chart_filename (artifacts w) = (inr None, store') →
     let r := fst (load_chart_tool chart_filename (Some tc) w) in
     load_chart_tool chart_filename (Some tc) w
     = (error_result ("Chart '" ++ chart_filename ++ "' not found in artifacts"),
        set_artifacts store' w)
     ∧ status r = Some "error" ∧ assoc "chart_info" r = None)
  ∧ (∀ chart_part mime store',
       load_artifact chart_filename (artifacts w) = (inr (Some chart_part), store') →
       mime_type_of chart_part = inr mime →
       let r := fst (load_chart_tool chart_filename (Some tc) w) in
       load_chart_tool chart_filename (Some tc) w
       = (loaded_result chart_filename (find_chart chart_filename (tracked w))
            mime,
          set_artifacts store' w)
       ∧ status r = Some "success"
       ∧ match find_chart chart_filename (tracked w) with
         | Some chart =>
             assoc "chart_info" r = Some (PyChart chart)
             ∧ ∃ before after,
                 tracked w = (before ++ chart :: after)%list
                 ∧ ChartRecord.filename chart = chart_filename
                 ∧ Forall (λ c, ChartRecord.filename c ≠ chart_filename) before
         | None =>
             assoc "chart_info" r = Some PyNone
             ∧ Forall (λ c, ChartRecord.filename c ≠ chart_filename) (tracked w)
         end).
Proof.
  split.
  - intros store' Hload. run_tool. by rewrite Hload.
  - intros chart_part mime store' Hload Hmime.
    assert (load_chart_tool chart_filename (Some tc) w
            = (loaded_result chart_filename
                 (find_chart chart_filename (tracked w)) mime,
               set_artifacts store' w)) as Hrun.
    { run_tool. rewrite Hload. simpl. by rewrite Hmime. }
    intros r. unfold r. rewrite Hrun. split_and!; [done..|]. simpl.
    pose proof (find_chart_first chart_filename (tracked w)) as Hfirst.
    by destruct (find_chart chart_filename (tracked w)).
Qed.

(** ** Listing and loading leave the state alone *)

Lemma substring_all s : String.substring 0 (String.length s) s = s.
Proof. induction s as [|a s IH]; simpl; by rewrite ?IH. Qed.

Lemma substring_after prefix suffix :
  String.substring (String.length prefix) (String.length suffix)
                   (prefix ++ suffix) = suffix.
Proof.
  induction prefix as [|a prefix IH]; simpl; [apply substring_all|done].
Qed.

Lemma substring_split k m s :
  (k + m = String.length s)%nat →
  s = String.substring 0 k s ++ String.substring k m s.
Proof.
  revert k. induction s as [|a s IH]; intros k Hlen; simpl in *.
  - by destruct k, m.
  - destruct k as [|k]; simpl.
    + destruct m as [|m]; [done|]. injection Hlen as ->.
      change (String a s = String a (String.substring 0 (String.length s) s)).
      by rewrite substring_all.
    + change (String a s
              = String a (String.substring 0 k s ++ String.substring k m s)).
      f_equal. apply IH. lia.
Qed.

Lemma length_append s1 s2 :
  String.length (s1 ++ s2) = (String.length s1 + String.length s2)%nat.
Proof.
  induction s1 as [|a s1 IH]; [done|].
  change (S (String.length (s1 ++ s2))
          = S (String.length s1 + String.length s2)). by rewrite IH.
Qed.

(** [PyStr.endswith] is the suffix test. *)
Lemma endswith_spec s suffix :
  PyStr.endswith s suffix = true ↔ ∃ prefix, s = prefix ++ suffix.
Proof.
  unfold PyStr.endswith. split.
  - destruct (Nat.leb_spec (String.length suffix) (String.length s)); [|done].
    intros Heq%String.eqb_eq.
    pose proof (substring_split (String.length s - String.length suffix)
                  (String.length suffix) s ltac:(lia)) as Hsplit.
    rewrite Heq in Hsplit. eauto.
  - intros [prefix ->]. rewrite length_append.
    rewrite (proj2 (Nat.leb_le _ _)) by lia.
    replace (String.length prefix + String.length suffix
             - String.length suffix)%nat with (String.length prefix) by lia.
    rewrite substring_after. apply String.eqb_refl.
Qed.

(** C10: [list_charts_tool] and [load_chart_tool] only read the session
    state: whatever their inputs and whatever the collaborators do, the
    state after the call is the state before it, so the tracked list is
    the same.  When the artifact names are listed, [list_charts_tool]
    returns the names that end in [.png], their number, and the whole
    tracked list. *)
Theorem list_and_load_preserve_state chart_filename tool_context w :
  state (snd (list_charts_tool tool_context w)) = state w
  ∧ state (snd (load_chart_tool chart_filename tool_context w)) = state w
  ∧ tracked (snd (list_charts_tool tool_context w)) = tracked w
  ∧ tracked (snd (load_chart_tool chart_filename tool_context w)) = tracked w
  ∧ ∀ tc names store',
      list_artifacts (artifacts w) = (inr names, store') →
      let chart_artifacts := List.filter (λ f, PyStr.endswith f ".png") names in
      list_charts_tool (Some tc) w
      = (listing_result chart_artifacts (tracked w), set_artifacts store' w)
      ∧ ∀ f, f ∈ chart_artifacts ↔ f ∈ names ∧ ∃ stem, f = stem ++ ".png".
Proof.
  assert (state (snd (list_charts_tool tool_context w)) = state w) as Hlist.
  { run_tool. destruct_outcomes; done. }
  assert (state (snd (load_chart_tool chart_filename tool_context w)) = state w)
    as Hload.
  { run_tool. destruct_outcomes; done. }
  split_and!; [done|done|unfold tracked; by rewrite Hlist
              |unfold tracked; by rewrite Hload|].
  intros tc names store' Hnames chart_artifacts. split.
  - run_tool. by rewrite Hnames.
  - intros f. unfold chart_artifacts.
    by rewrite !list_elem_of_In, filter_In, endswith_spec.
Qed.

(** ** Every call returns a result *)

Lemma plot_tool_except_status e : status (plot_tool_except e) = Some "error".
Proof. by destruct e. Qed.

Lemma generic_except_status what e :
  status (generic_except (adk := adk) what e) = Some "error".
Proof. by destruct e. Qed.

Lemma plot_tool_status params chart_type save_folder tool_context w :
  valid_status (fst (plot_tool params chart_type save_folder tool_context w)).
Proof.
  unfold valid_status. run_tool.
  destruct_outcomes; auto using plot_tool_except_status.
Qed.

Lemma list_charts_tool_status tool_context w :
  valid_status (fst (list_charts_tool tool_context w)).
Proof.
  unfold valid_status. run_tool.
  destruct_outcomes; auto using generic_except_status.
Qed.

Lemma load_chart_tool_status chart_filename tool_context w :
  valid_status (fst (load_chart_tool chart_filename tool_context w)).
Proof.
  unfold valid_status. run_tool.
  destruct_outcomes; auto using generic_except_status.
Qed.

Lemma delete_chart_tool_status chart_filename tool_context w :
  valid_status (fst (delete_chart_tool chart_filename tool_context w)).
Proof.
  unfold valid_status. run_tool.
  destruct_outcomes; auto using generic_except_status.
Qed.

(** C2: each of the four tools is a total function from its inputs and the
    world to a result dictionary and a world, whatever the collaborators
    do; the [status] of the result is [success], [error] or [warning]; and
    when the body of [plot_tool] raises an exception that is neither a
    [JSONDecodeError] nor a [KeyError], the result is the status [error]
    with the message [Error generating chart: ] followed by the text of the
    exception. *)
Theorem tools_return_structured_results :
  (∀ params chart_type save_folder tool_context w,
     valid_status (fst (plot_tool params chart_type save_folder tool_context w)))
  ∧ (∀ tool_context w, valid_status (fst (list_charts_tool tool_context w)))
  ∧ (∀ chart_filename tool_context w,
       valid_status (fst (load_chart_tool chart_filename tool_context w)))
  ∧ (∀ chart_filename tool_context w,
       valid_status (fst (delete_chart_tool chart_filename tool_context w)))
  ∧ (∀ params chart_type save_folder tool_context w msg w',
       plot_tool_body params chart_type save_folder tool_context w
       = (inl (OtherException msg), w') →
       plot_tool params chart_type save_folder tool_context w
       = (error_result ("Error generating chart: " ++ msg), w')).
Proof.
  split_and!.
  - apply plot_tool_status.
  - apply list_charts_tool_status.
  - apply load_chart_tool_status.
  - apply delete_chart_tool_status.
  - intros * Hbody. unfold plot_tool, try_except. by rewrite Hbody.
Qed.

(** * Further properties of the tools *)

(** ** Shared facts *)

Lemma tracked_set_state charts st w :
  tracked (set_state (<["generated_charts" := charts]> st) w) = charts.
Proof. unfold tracked. simpl. by rewrite lookup_insert_eq. Qed.

(** A call of [plot_tool] that does not report [success] reports [error]
    and has left the session state alone. *)
Lemma plot_tool_cases params chart_type save_folder tool_context w :
  status (fst (plot_tool params chart_type save_folder tool_context w))
  = Some "success"
  ∨ (status (fst (plot_tool params chart_type save_folder tool_context w))
     = Some "error"
     ∧ state (snd (plot_tool params chart_type save_folder tool_context w))
       = state w).
Proof.
  run_tool. destruct_outcomes; auto using plot_tool_except_status.
Qed.

(** What a successful run with a context leaves. *)
Lemma plot_tool_context_success params chart_type save_folder tc w r w' :
  plot_tool params chart_type save_folder (Some tc) w = (r, w') →
  status r = Some "success" →
  ∃ x y version store',
    let filename := chart_type ++ "_" ++ y ++ "_vs_" ++ x ++ "_"
                    ++ strftime (clock w) ++ ".png" in
    r = artifact_result filename version chart_type
    ∧ w' = set_state
             (<["generated_charts" :=
                  (tracked w
                   ++ [ChartRecord.Build filename chart_type (JStr x) (JStr y)
                         (strftime (clock w)) version])%list]> (state w))
             (set_artifacts store' w).
Proof.
  intros Hrun Hsuccess.
  destruct (plot_tool_success_inv _ _ _ _ _ _ _ Hrun Hsuccess)
    as (x & y & filename & data & df_data & df & fig & _ & _ & _ & _ & _ & _
        & -> & img & version & store' & _ & _ & -> & ->).
  by exists x, y, version, store'.
Qed.

(** What a successful run without a context leaves. *)
Lemma plot_tool_file_success params chart_type save_folder w r w' :
  plot_tool params chart_type save_folder None w = (r, w') →
  status r = Some "success" →
  ∃ x y fs,
    let filename := chart_type ++ "_" ++ y ++ "_vs_" ++ x ++ "_"
                    ++ strftime (clock w) ++ ".png" in
    r = file_result (os_path_join save_folder filename) chart_type
    ∧ w' = set_files fs w.
Proof.
  intros Hrun Hsuccess.
  destruct (plot_tool_success_inv _ _ _ _ _ _ _ Hrun Hsuccess)
    as (x & y & filename & data & df_data & df & fig & _ & _ & _ & _ & _ & _
        & -> & fs1 & fs2 & _ & _ & -> & ->).
  by exists x, y, fs2.
Qed.

(** [delete_chart_tool] with a context, by the test it makes. *)
Lemma delete_chart_tool_unfold chart_filename tc w :
  let kept := List.filter (λ chart, negb (named chart_filename chart)) (tracked w) in
  delete_chart_tool chart_filename (Some tc) w
  = if (List.length kept =? List.length (tracked w))%nat
    then (not_tracked_result chart_filename, w)
    else (removed_result chart_filename
            (List.length (tracked w) - List.length kept),
          set_state (<["generated_charts" := kept]> (state w)) w).
Proof. intros kept. run_tool. by destruct (_ =? _)%nat. Qed.

Lemma filter_negb_named_idem chart_filename (l : list (ChartRecord.t Version)) :
  List.filter (λ chart, negb (named chart_filename chart))
    (List.filter (λ chart, negb (named chart_filename chart)) l)
  = List.filter (λ chart, negb (named chart_filename chart)) l.
Proof.
  induction l as [|c l IH]; [done|]. simpl.
  destruct (negb (named chart_filename c)) eqn:Hc; [|done].
  simpl. by rewrite Hc, IH.
Qed.

Lemma find_chart_filtered chart_filename (l : list (ChartRecord.t Version)) :
  find_chart chart_filename
    (List.filter (λ chart, negb (named chart_filename chart)) l) = None.
Proof.
  unfold find_chart. induction l as [|c l IH]; [done|]. simpl.
  destruct (named chart_filename c) eqn:Hc; simpl; [done|].
  unfold named in Hc. by rewrite Hc.
Qed.

Lemma filter_negb_named_all chart_filename (l : list (ChartRecord.t Version)) :
  (List.length (List.filter (λ chart, negb (named chart_filename chart)) l)
   =? List.length l)%nat = true →
  List.filter (λ chart, negb (named chart_filename chart)) l = l.
Proof.
  intros Hlen%Nat.eqb_eq. induction l as [|c l IH]; [done|]. simpl in *.
  pose proof (filter_sublist (λ chart, negb (named chart_filename chart)) l)
    as Hsub%sublist_length.
  destruct (negb (named chart_filename c)); simpl in *; [|lia].
  f_equal. apply IH. lia.
Qed.

(** The tracked list after [delete_chart_tool], whatever it answered. *)
Lemma delete_chart_tool_tracked chart_filename tc w :
  tracked (snd (delete_chart_tool chart_filename (Some tc) w))
  = List.filter (λ chart, negb (named chart_filename chart)) (tracked w).
Proof.
  rewrite delete_chart_tool_unfold.
  destruct (_ =? _)%nat eqn:Hlen; simpl.
  - by rewrite filter_negb_named_all.
  - apply tracked_set_state.
Qed.

(** ** Parameters that parse but cannot be drawn *)

(** X3: parameters that are JSON but not an object (a list, a string, a
    number, [true], [false], [null]) are neither malformed nor short of a
    key: the subscript ['df'] raises [TypeError], and [plot_tool] returns
    the generic error, with the world unchanged. *)
Theorem plot_tool_not_an_object params chart_type save_folder tool_context w
    data :
  json_loads params = inr data →
  (∀ fields, data ≠ JObj fields) →
  ∃ msg,
    getitem data "df" = inl (OtherException msg)
    ∧ plot_tool params chart_type save_folder tool_context w
      = (error_result ("Error generating chart: " ++ msg), w).
Proof.
  intros Hloads Hobj. run_tool. rewrite Hloads.
  destruct data; simpl; try (by eexists); by destruct (Hobj fields).
Qed.

(** X4: a chart is only drawn for column names that are strings.  When
    the value of [x_col] or of [y_col] is not a JSON string, [plot_tool]
    returns the status [error] and the world is unchanged, whatever the
    chart library makes of the value. *)
Theorem plot_tool_needs_string_columns params chart_type save_folder
    tool_context w data x_col y_col :
  json_loads params = inr data →
  getitem data "x_col" = inr x_col →
  getitem data "y_col" = inr y_col →
  (∀ x, x_col ≠ JStr x) ∨ (∀ y, y_col ≠ JStr y) →
  status (fst (plot_tool params chart_type save_folder tool_context w))
  = Some "error"
  ∧ snd (plot_tool params chart_type save_folder tool_context w) = w.
Proof.
  intros Hloads Hx Hy Hstr. run_tool. rewrite Hloads, Hx, Hy.
  destruct (getitem data "df") as [e|df_data]; [by destruct e|].
  destruct (pd_DataFrame df_data) as [e|df]; [by destruct e|].
  destruct (build_figure chart_type df x_col y_col) as [e|fig] eqn:Hfig;
    [by destruct e|].
  destruct (build_figure_strings _ _ _ _ _ Hfig) as (x & y & -> & ->).
  destruct Hstr as [Hstr|Hstr]; by edestruct Hstr.
Qed.

(** X5: data that pandas turns down (columns of different lengths, for
    one) is reported through the [except] clauses with the text of
    pandas, before any chart is drawn; the world is unchanged. *)
Theorem plot_tool_frame_rejected params chart_type save_folder tool_context w
    data df_data x_col y_col e :
  json_loads params = inr data →
  getitem data "df" = inr df_data →
  getitem data "x_col" = inr x_col →
  getitem data "y_col" = inr y_col →
  pd_DataFrame df_data = inl e →
  plot_tool params chart_type save_folder tool_context w
  = (plot_tool_except e, w)
  ∧ status (plot_tool_except e) = Some "error".
Proof.
  intros Hloads Hdf Hx Hy Hframe. split; [|apply plot_tool_except_status].
  run_tool. by rewrite Hloads, Hdf, Hx, Hy, Hframe.
Qed.

(** ** What [plot_tool] leaves alone *)

(** X6: [plot_tool] tracks a record only when it reports [success]: a
    call that ends otherwise reports [error] and the session state after
    it is the state before, so no record is left for an image that was
    not stored. *)
Theorem plot_tool_error_keeps_state params chart_type save_folder tool_context
    w r w' :
  plot_tool params chart_type save_folder tool_context w = (r, w') →
  status r ≠ Some "success" →
  status r = Some "error" ∧ state w' = state w ∧ tracked w' = tracked w.
Proof.
  intros Hrun Hfail.
  destruct (plot_tool_cases params chart_type save_folder tool_context w)
    as [Hok|[Herr Hstate]]; rewrite Hrun in *; simpl in *; [done|].
  unfold tracked. by rewrite Hstate.
Qed.

(** X7: with a context [plot_tool] never touches the file system, and
    without one it never touches the artifact store or the session state,
    whether it succeeds or fails; it never sets the clock. *)
Theorem plot_tool_frame params chart_type save_folder tc tool_context w :
  files (snd (plot_tool params chart_type save_folder (Some tc) w)) = files w
  ∧ artifacts (snd (plot_tool params chart_type save_folder None w))
    = artifacts w
  ∧ state (snd (plot_tool params chart_type save_folder None w)) = state w
  ∧ clock (snd (plot_tool params chart_type save_folder tool_context w))
    = clock w.
Proof.
  split_and!; run_tool; destruct_outcomes; done.
Qed.

(** X8: [plot_tool] never drops or rewrites a tracked record: after any
    call the list tracked before is a prefix of the list tracked after,
    which is longer by one record at most. *)
Theorem plot_tool_tracked_grows params chart_type save_folder tool_context w :
  let w' := snd (plot_tool params chart_type save_folder tool_context w) in
  tracked w `prefix_of` tracked w'
  ∧ (List.length (tracked w') ≤ S (List.length (tracked w)))%nat.
Proof.
  intros w'. subst w'.
  destruct (plot_tool params chart_type save_folder tool_context w)
    as [r w'] eqn:Hrun. simpl.
  destruct (plot_tool_cases params chart_type save_folder tool_context w)
    as [Hok|[_ Hstate]]; rewrite Hrun in *; simpl in *.
  - destruct tool_context as [tc|].
    + destruct (plot_tool_context_success _ _ _ _ _ _ _ Hrun Hok)
        as (x & y & version & store' & _ & ->).
      rewrite tracked_set_state. split; [by eexists|].
      rewrite length_app. simpl. lia.
    + destruct (plot_tool_file_success _ _ _ _ _ _ Hrun Hok)
        as (x & y & fs & _ & ->).
      unfold tracked. simpl. split; [done|lia].
  - unfold tracked. rewrite Hstate. split; [done|lia].
Qed.

(** X9: the folder made for a chart is not taken back when writing the
    image fails: the result is the error of [write_image], and the file
    system is the one [os.makedirs] and the failed write left. *)
Theorem plot_tool_write_failure params chart_type save_folder w
    data df_data x_col y_col df fig fs1 fs2 e :
  json_loads params = inr data →
  getitem data "df" = inr df_data →
  getitem data "x_col" = inr x_col →
  getitem data "y_col" = inr y_col →
  pd_DataFrame df_data = inr df →
  build_figure chart_type df x_col y_col = inr fig →
  os_makedirs save_folder (files w) = (inr tt, fs1) →
  write_image fig
    (os_path_join save_folder
       (chart_filename_of chart_type x_col y_col (strftime (clock w))))
    800 600 2 fs1 = (inl e, fs2) →
  plot_tool params chart_type save_folder None w
  = (plot_tool_except e, set_files fs2 w).
Proof.
  intros Hloads Hdf Hx Hy Hframe Hfig Hdirs Hwrite.
  run_tool. rewrite Hloads, Hdf, Hx, Hy, Hframe, Hfig, Hdirs. simpl.
  by rewrite Hwrite.
Qed.

(** ** File names *)

Lemma append_assoc s1 s2 s3 : (s1 ++ s2) ++ s3 = s1 ++ (s2 ++ s3).
Proof.
  induction s1 as [|a s1 IH]; [done|].
  change (String a ((s1 ++ s2) ++ s3) = String a (s1 ++ (s2 ++ s3))).
  by rewrite IH.
Qed.

Lemma filename_ends_in_png chart_type x y timestamp :
  PyStr.endswith
    (chart_type ++ "_" ++ y ++ "_vs_" ++ x ++ "_" ++ timestamp ++ ".png")
    ".png" = true.
Proof.
  apply endswith_spec.
  exists (chart_type ++ "_" ++ y ++ "_vs_" ++ x ++ "_" ++ timestamp).
  by rewrite !append_assoc.
Qed.

(** X10: the file name does not tell the columns apart: a [y_col] with
    [_vs_] in it and an [x_col] with [_vs_] in it give the same name for
    the same chart type and second, although the column pairs differ. *)
Theorem chart_filename_collision chart_type a b c timestamp :
  chart_filename_of chart_type (JStr c) (JStr (a ++ "_vs_" ++ b)) timestamp
  = chart_filename_of chart_type (JStr (b ++ "_vs_" ++ c)) (JStr a) timestamp
  ∧ JStr (a ++ "_vs_" ++ b) ≠ JStr a.
Proof.
  split.
  - unfold chart_filename_of, format. by rewrite !append_assoc.
  - intros [= Heq]. apply (f_equal String.length) in Heq.
    rewrite length_append in Heq. simpl in Heq. lia.
Qed.

(** X11: the path of a chart written without a context is
    [os.path.join(save_folder, filename)], and the file name starts with
    [chart_type]: a [chart_type] that starts with [/] makes the path the
    file name itself, outside [save_folder]; any other [chart_type] gives
    a path that starts with [save_folder]. *)
Theorem plot_tool_filepath params chart_type save_folder w r w' :
  plot_tool params chart_type save_folder None w = (r, w') →
  status r = Some "success" →
  ∃ x y,
    let filename := chart_type ++ "_" ++ y ++ "_vs_" ++ x ++ "_"
                    ++ strftime (clock w) ++ ".png" in
    (PyStr.startswith_char chart_type "/" = true →
     assoc "filepath" r = Some (PyStr filename))
    ∧ (PyStr.startswith_char chart_type "/" = false →
       ∃ rest, assoc "filepath" r = Some (PyStr (save_folder ++ rest))
               ∧ (rest = filename ∨ rest = "/" ++ filename)).
Proof.
  intros Hrun Hsuccess.
  destruct (plot_tool_file_success _ _ _ _ _ _ Hrun Hsuccess)
    as (x & y & fs & -> & _).
  exists x, y. intros filename. simpl. fold filename.
  assert (PyStr.startswith_char filename "/"
          = PyStr.startswith_char chart_type "/") as Hstart
    by (unfold filename; by destruct chart_type).
  unfold os_path_join. rewrite Hstart. split; intros ->; [done|].
  destruct (_ || _); eauto.
Qed.

(** ** An invariant of the tracked list *)

Lemma list_charts_tool_state tool_context w :
  state (snd (list_charts_tool tool_context w)) = state w.
Proof. run_tool. destruct_outcomes; done. Qed.

Lemma load_chart_tool_state chart_filename tool_context w :
  state (snd (load_chart_tool chart_filename tool_context w)) = state w.
Proof. run_tool. destruct_outcomes; done. Qed.

(** X12: the four tools keep the tracked list well formed.  When every
    tracked record has string columns and the file name its own fields
    spell out, the same holds after any call of any of the tools; and the
    file name of such a record ends in [.png], so the filter of
    [list_charts_tool] keeps it. *)
Theorem tools_keep_records_well_formed params chart_type save_folder
    chart_filename tool_context w :
  Forall well_formed_record (tracked w) →
  Forall well_formed_record
    (tracked (snd (plot_tool params chart_type save_folder tool_context w)))
  ∧ Forall well_formed_record (tracked (snd (list_charts_tool tool_context w)))
  ∧ Forall well_formed_record
      (tracked (snd (load_chart_tool chart_filename tool_context w)))
  ∧ Forall well_formed_record
      (tracked (snd (delete_chart_tool chart_filename tool_context w)))
  ∧ Forall (λ c, PyStr.endswith (ChartRecord.filename c) ".png" = true)
           (tracked w).
Proof.
  intros Hwf. split_and!.
  - destruct (plot_tool params chart_type save_folder tool_context w)
      as [r w'] eqn:Hrun. simpl.
    destruct (plot_tool_cases params chart_type save_folder tool_context w)
      as [Hok|[_ Hstate]]; rewrite Hrun in *; simpl in *.
    + destruct tool_context as [tc|].
      * destruct (plot_tool_context_success _ _ _ _ _ _ _ Hrun Hok)
          as (x & y & version & store' & _ & ->).
        rewrite tracked_set_state. apply Forall_app. split; [done|].
        constructor; [|constructor]. by exists x, y.
      * by destruct (plot_tool_file_success _ _ _ _ _ _ Hrun Hok)
          as (x & y & fs & _ & ->).
    + unfold tracked. by rewrite Hstate.
  - unfold tracked. by rewrite list_charts_tool_state.
  - unfold tracked. by rewrite load_chart_tool_state.
  - destruct tool_context as [tc|]; [|done].
    rewrite delete_chart_tool_tracked.
    eapply incl_Forall; [apply incl_filter|done].
  - eapply Forall_impl; [exact Hwf|].
    intros c (x & y & _ & _ & ->). apply filename_ends_in_png.
Qed.

(** ** Deleting *)

(** X13: [delete_chart_tool] only ever touches the key
    ["generated_charts"]: the artifact store, the files and every other
    key of the state are as before, with or without a context and
    whatever it answers; the artifact of a deleted chart stays stored. *)
Theorem delete_chart_tool_frame chart_filename tool_context w :
  let w' := snd (delete_chart_tool chart_filename tool_context w) in
  artifacts w' = artifacts w
  ∧ files w' = files w
  ∧ clock w' = clock w
  ∧ ∀ key, key ≠ "generated_charts" → state w' !! key = state w !! key.
Proof.
  destruct tool_context as [tc|]; [|done]. cbv zeta.
  rewrite delete_chart_tool_unfold.
  destruct (_ =? _)%nat; simpl; split_and!; try done.
  intros key Hkey. by rewrite lookup_insert_ne.
Qed.

(** X14: deleting is idempotent: a second [delete_chart_tool] of the same
    file name answers [warning] and changes nothing. *)
Theorem delete_chart_tool_twice chart_filename tc w :
  let w' := snd (delete_chart_tool chart_filename (Some tc) w) in
  delete_chart_tool chart_filename (Some tc) w'
  = (not_tracked_result chart_filename, w').
Proof.
  intros w'. rewrite delete_chart_tool_unfold.
  unfold w'. rewrite delete_chart_tool_tracked, filter_negb_named_idem.
  by rewrite Nat.eqb_refl.
Qed.

(** X15: deletions commute: deleting two file names in either order
    leaves the same tracked list. *)
Theorem delete_chart_tool_commute name1 name2 tc w :
  tracked (snd (delete_chart_tool name2 (Some tc)
                  (snd (delete_chart_tool name1 (Some tc) w))))
  = tracked (snd (delete_chart_tool name1 (Some tc)
                    (snd (delete_chart_tool name2 (Some tc) w)))).
Proof.
  rewrite !delete_chart_tool_tracked.
  induction (tracked w) as [|c l IH]; [done|]. simpl.
  destruct (negb (named name1 c)) eqn:H1, (negb (named name2 c)) eqn:H2;
    simpl; rewrite ?H1, ?H2; by rewrite ?IH.
Qed.

(** X16: after [delete_chart_tool], a chart whose artifact the store
    still returns loads with [success] and without a record:
    [chart_info] is [None]. *)
Theorem load_after_delete_has_no_record chart_filename tc w chart_part mime
    store' :
  let w' := snd (delete_chart_tool chart_filename (Some tc) w) in
  load_artifact chart_filename (artifacts w) = (inr (Some chart_part), store') →
  mime_type_of chart_part = inr mime →
  load_chart_tool chart_filename (Some tc) w'
  = (loaded_result chart_filename None mime, set_artifacts store' w').
Proof.
  intros w' Hload Hmime.
  assert (artifacts w' = artifacts w) as Hart.
  { unfold w'. rewrite delete_chart_tool_unfold. by destruct (_ =? _)%nat. }
  assert (find_chart chart_filename (tracked w') = None) as Hfind.
  { unfold w'. rewrite delete_chart_tool_tracked. apply find_chart_filtered. }
  run_tool. rewrite Hart, Hload. simpl. rewrite Hmime.
  fold (tracked w'). by rewrite Hfind.
Qed.

(** ** A chart after it was drawn *)

Lemma artifact_result_name filename version chart_type name :
  assoc "artifact_name" (artifact_result filename version chart_type)
  = Some (PyStr name) →
  name = filename.
Proof. by intros [= ->]. Qed.

Lemma filter_negb_named_fresh name (l : list (ChartRecord.t Version)) :
  Forall (λ c, ChartRecord.filename c ≠ name) l →
  List.filter (λ chart, negb (named name chart)) l = l.
Proof.
  induction 1 as [|c l Hc _ IH]; [done|]. simpl.
  apply String.eqb_neq in Hc. unfold named at 1. rewrite Hc. simpl.
  by rewrite IH.
Qed.

Lemma filter_app_last {A} (f : A → bool) (l : list A) (a : A) :
  List.filter f (l ++ [a])%list
  = (List.filter f l ++ if f a then [a] else [])%list.
Proof. rewrite List.filter_app. done. Qed.

Lemma find_chart_fresh name (l : list (ChartRecord.t Version)) c :
  Forall (λ c, ChartRecord.filename c ≠ name) l →
  ChartRecord.filename c = name →
  find_chart name (l ++ [c])%list = Some c.
Proof.
  intros Hl Hc. unfold find_chart.
  induction Hl as [|c' l Hc' _ IH]; simpl.
  - by rewrite Hc, String.eqb_refl.
  - apply String.eqb_neq in Hc'. by rewrite Hc'.
Qed.

Lemma count_named_split name (l : list (ChartRecord.t Version)) :
  (List.length l
   - List.length (List.filter (λ chart, negb (named name chart)) l))%nat
  = count_named name l.
Proof.
  unfold count_named. pose proof (filter_split_length (named name) l). lia.
Qed.

(** X17: drawing a chart and then deleting it by the name that was
    returned puts the tracked list back: when no record of that name was
    tracked before, [delete_chart_tool] answers [success] with one chart
    removed, and the list is the one tracked before the chart was drawn. *)
Theorem delete_after_plot_restores_tracking params chart_type save_folder tc
    w r w1 name :
  plot_tool params chart_type save_folder (Some tc) w = (r, w1) →
  status r = Some "success" →
  assoc "artifact_name" r = Some (PyStr name) →
  Forall (λ c, ChartRecord.filename c ≠ name) (tracked w) →
  fst (delete_chart_tool name (Some tc) w1) = removed_result name 1
  ∧ tracked (snd (delete_chart_tool name (Some tc) w1)) = tracked w.
Proof.
  intros Hrun Hsuccess Hname Hfresh.
  destruct (plot_tool_context_success _ _ _ _ _ _ _ Hrun Hsuccess)
    as (x & y & version & store' & -> & Hw1).
  apply artifact_result_name in Hname. cbv zeta in Hw1.
  rewrite <- Hname in Hw1. clear Hname.
  assert (tracked w1
          = (tracked w
             ++ [ChartRecord.Build name chart_type (JStr x) (JStr y)
                   (strftime (clock w)) version])%list) as Htracked
    by (rewrite Hw1; apply tracked_set_state).
  assert (List.filter (λ chart, negb (named name chart)) (tracked w1)
          = tracked w) as Hkept.
  { rewrite Htracked, filter_app_last, filter_negb_named_fresh by done.
    unfold named. simpl. rewrite String.eqb_refl. simpl. apply app_nil_r. }
  split; [|by rewrite delete_chart_tool_tracked].
  rewrite delete_chart_tool_unfold, Hkept.
  rewrite Htracked, length_app. simpl.
  rewrite (proj2 (Nat.eqb_neq _ _)) by lia. simpl.
  by replace (List.length (tracked w) + 1 - List.length (tracked w))%nat
    with 1%nat by lia.
Qed.

(** X18: the file name is made of the chart type, the columns and the
    second of the clock, and of nothing else: drawing the same chart
    again within the same second succeeds under the same name, so that
    two tracked records share it and a deletion by that name removes at
    least two. *)
Theorem plot_tool_twice_same_second params chart_type save_folder tc
    w r1 w1 w1' r2 w2 :
  plot_tool params chart_type save_folder (Some tc) w = (r1, w1) →
  status r1 = Some "success" →
  state w1' = state w1 →
  clock w1' = clock w →
  plot_tool params chart_type save_folder (Some tc) w1' = (r2, w2) →
  status r2 = Some "success" →
  ∃ name first second,
    assoc "artifact_name" r1 = Some (PyStr name)
    ∧ assoc "artifact_name" r2 = Some (PyStr name)
    ∧ tracked w2 = (tracked w ++ [first; second])%list
    ∧ ChartRecord.filename first = name
    ∧ ChartRecord.filename second = name
    ∧ (2 ≤ count_named name (tracked w2))%nat
    ∧ fst (delete_chart_tool name (Some tc) w2)
      = removed_result name (count_named name (tracked w2)).
Proof.
  intros Hrun1 Hok1 Hstate Hclock Hrun2 Hok2.
  destruct (plot_tool_success_inv _ _ _ _ _ _ _ Hrun1 Hok1)
    as (x & y & name & data & df_data & df & fig & Hloads & _ & Hx & Hy & _
        & _ & Hname & img & v1 & store1 & _ & _ & -> & Hw1).
  destruct (plot_tool_success_inv _ _ _ _ _ _ _ Hrun2 Hok2)
    as (x' & y' & name' & data' & df_data' & df' & fig' & Hloads' & _ & Hx'
        & Hy' & _ & _ & Hname' & img' & v2 & store2 & _ & _ & -> & Hw2).
  rewrite Hloads in Hloads'. injection Hloads' as <-.
  rewrite Hx in Hx'. injection Hx' as <-.
  rewrite Hy in Hy'. injection Hy' as <-.
  rewrite Hclock, <- Hname in Hname'. subst name'.
  assert (tracked w1' = tracked w1) as Htracked1
    by (unfold tracked; by rewrite Hstate).
  rewrite Htracked1, Hw1, tracked_set_state, <- app_assoc in Hw2.
  simpl in Hw2.
  assert (tracked w2
          = (tracked w
             ++ [ChartRecord.Build name chart_type (JStr x) (JStr y)
                   (strftime (clock w)) v1;
                 ChartRecord.Build name chart_type (JStr x) (JStr y)
                   (strftime (clock w1')) v2])%list) as Htracked2
    by (rewrite Hw2; apply tracked_set_state).
  assert (2 ≤ count_named name (tracked w2))%nat as Hcount.
  { unfold count_named. rewrite Htracked2, List.filter_app, length_app.
    unfold named. simpl. rewrite String.eqb_refl. simpl. lia. }
  eexists name, _, _. split_and!; [done|done|exact Htracked2|done|done|done|].
  rewrite delete_chart_tool_unfold, count_named_split.
  pose proof (filter_split_length (named name) (tracked w2)) as Hsplit.
  fold (count_named name (tracked w2)) in Hsplit.
  by rewrite (proj2 (Nat.eqb_neq _ _)) by lia.
Qed.

(** X19: a chart drawn with a context shows in the listing on both
    sides: when the store lists its name, the name passes the [.png]
    filter, and the history is the list tracked before followed by the
    record of the chart. *)
Theorem list_after_plot_shows_chart params chart_type save_folder tc
    w r w1 name names store' :
  plot_tool params chart_type save_folder (Some tc) w = (r, w1) →
  status r = Some "success" →
  assoc "artifact_name" r = Some (PyStr name) →
  list_artifacts (artifacts w1) = (inr names, store') →
  name ∈ names →
  ∃ chart_artifacts record,
    list_charts_tool (Some tc) w1
    = (listing_result chart_artifacts (tracked w ++ [record])%list,
       set_artifacts store' w1)
    ∧ name ∈ chart_artifacts
    ∧ ChartRecord.filename record = name
    ∧ ChartRecord.chart_type record = chart_type
    ∧ assoc "version" r = Some (PyVersion (ChartRecord.version record)).
Proof.
  intros Hrun Hsuccess Hname Hnames Hin.
  destruct (plot_tool_context_success _ _ _ _ _ _ _ Hrun Hsuccess)
    as (x & y & version & store1 & -> & Hw1).
  apply artifact_result_name in Hname. cbv zeta in Hw1.
  exists (List.filter (λ f, PyStr.endswith f ".png") names). eexists.
  assert (tracked w1
          = (tracked w
             ++ [ChartRecord.Build name chart_type (JStr x) (JStr y)
                   (strftime (clock w)) version])%list) as Htracked
    by (rewrite Hw1, Hname; apply tracked_set_state).
  split_and!.
  - run_tool. rewrite Hnames. simpl. fold (tracked w1).
    rewrite Htracked. reflexivity.
  - apply list_elem_of_In, filter_In. split; [by apply list_elem_of_In|].
    rewrite Hname. apply filename_ends_in_png.
  - done.
  - done.
  - done.
Qed.

(** X20: a chart drawn with a context loads with its own record: when no
    record of its name was tracked before and the store returns the part,
    [load_chart_tool] answers [success] with the record the drawing
    appended, which carries the chart type and the version that the
    drawing returned. *)
Theorem load_after_plot_returns_record params chart_type save_folder tc
    w r w1 name chart_part mime store' :
  plot_tool params chart_type save_folder (Some tc) w = (r, w1) →
  status r = Some "success" →
  assoc "artifact_name" r = Some (PyStr name) →
  Forall (λ c, ChartRecord.filename c ≠ name) (tracked w) →
  load_artifact name (artifacts w1) = (inr (Some chart_part), store') →
  mime_type_of chart_part = inr mime →
  ∃ record,
    load_chart_tool name (Some tc) w1
    = (loaded_result name (Some record) mime, set_artifacts store' w1)
    ∧ ChartRecord.filename record = name
    ∧ ChartRecord.chart_type record = chart_type
    ∧ assoc "version" r = Some (PyVersion (ChartRecord.version record)).
Proof.
  intros Hrun Hsuccess Hname Hfresh Hload Hmime.
  destruct (plot_tool_context_success _ _ _ _ _ _ _ Hrun Hsuccess)
    as (x & y & version & store1 & -> & Hw1).
  apply artifact_result_name in Hname. cbv zeta in Hw1.
  rewrite <- Hname in Hw1.
  assert (tracked w1
          = (tracked w
             ++ [ChartRecord.Build name chart_type (JStr x) (JStr y)
                   (strftime (clock w)) version])%list) as Htracked
    by (rewrite Hw1; apply tracked_set_state).
  exists (ChartRecord.Build name chart_type (JStr x) (JStr y)
            (strftime (clock w)) version).
  split_and!; [|done..].
  run_tool. rewrite Hload. simpl. rewrite Hmime. fold (tracked w1).
  rewrite Htracked. by rewrite find_chart_fresh.
Qed.

(** ** Failures of the artifact service *)

(** X21: when the artifact service raises, [list_charts_tool] and
    [load_chart_tool] answer [error] with their own prefix followed by
    the text of the exception, whatever its class, and the session state
    is as before. *)
Theorem artifact_errors_are_reported chart_filename tc w :
  (∀ e store',
     list_artifacts (artifacts w) = (inl e, store') →
     list_charts_tool (Some tc) w
     = (error_result ("Error listing charts: " ++ exn_text e),
        set_artifacts store' w))
  ∧ (∀ e store',
       load_artifact chart_filename (artifacts w) = (inl e, store') →
       load_chart_tool chart_filename (Some tc) w
       = (error_result ("Error loading chart: " ++ exn_text e),
          set_artifacts store' w)).
Proof.
  split; intros e store' Hraise; run_tool; rewrite Hraise; by destruct e.
Qed.

(** ** Writing into a writable folder *)






End Properties.

(** * The tools on the in-memory collaborators *)

Section Runs.
#[local] Existing Instances Fake.python Fake.os Fake.chartlib Fake.adk.

Lemma mem_false name (names : list string) :
  name ∉ names → Fake.mem name names = false.
Proof.
  intros Hname. unfold Fake.mem. apply not_true_iff_false.
  rewrite existsb_exists. intros (n & Hin & ->%String.eqb_eq).
  by apply Hname, list_elem_of_In.
Qed.

(** The stand-in for plotly rejects a missing column as plotly does. *)
Lemma fake_rejects_absent_columns : rejects_absent_columns.
Proof.
  intros df x y title px Habsent Hpx.
  assert (∃ kind, px = Fake.px kind) as [kind ->].
  { repeat (apply elem_of_cons in Hpx as [->|Hpx]); [by eexists..|].
    by apply elem_of_nil in Hpx. }
  unfold Fake.px.
  assert (∀ field v, absent_column df v →
            ∃ msg, Fake.check_column field v df = Some (OtherException msg))
    as Hcheck.
  { intros field v (name & -> & Hname). simpl in *.
    rewrite mem_false by done. by eexists. }
  assert (∀ field v e, Fake.check_column field v df = Some e →
            ∃ msg, e = OtherException msg) as Hclass.
  { intros field v e. unfold Fake.check_column.
    destruct v; try done; destruct (Fake.mem _ _); try done;
      intros [= <-]; by eexists. }
  destruct Habsent as [Hx|Hy].
  - destruct (Hcheck "x" x Hx) as [msg ->]. by eexists.
  - destruct (Fake.check_column "x" x df) as [e|] eqn:Hx.
    + destruct (Hclass _ _ _ Hx) as [msg ->]. by eexists.
    + destruct (Hcheck "y" y Hy) as [msg ->]. by eexists.
Qed.


(** The claim of the specification at a column the frame does not have:
    the parameters parse, the three keys are there, [y_col] names no
    column, and the answer is not a missing-key error, whatever key it
    would name; it is the generic error with the text of the library. *)
Lemma absent_column_is_not_missing_key :
  let params := Fake.params_with "day" "profit" in
  ∃ data df_data df,
    json_loads params = inr data
    ∧ getitem data "df" = inr df_data
    ∧ getitem data "x_col" = inr (JStr "day")
    ∧ getitem data "y_col" = inr (JStr "profit")
    ∧ pd_DataFrame df_data = inr df
    ∧ ("profit" ∉ columns df)
    ∧ fst (plot_tool params "line" "charts" None Fake.empty_world)
      = error_result
          ("Error generating chart: Value of 'y' is not the name of a column in "
           ++ "'data_frame'. Expected one of ['day', 'sales'] but received: profit")
    ∧ (∀ text,
         fst (plot_tool params "line" "charts" None Fake.empty_world)
         ≠ error_result ("Missing key in JSON data: " ++ text)).
Proof.
  intros params.
  exists (JObj [("df", JObj [("day", JArr [JInt 1; JInt 2; JInt 3]);
                             ("sales", JArr [JInt 10; JInt 20; JInt 15])]);
                ("x_col", JStr "day"); ("y_col", JStr "profit")]).
  exists (JObj [("day", JArr [JInt 1; JInt 2; JInt 3]);
                ("sales", JArr [JInt 10; JInt 20; JInt 15])]).
  exists [("day", [JInt 1; JInt 2; JInt 3]); ("sales", [JInt 10; JInt 20; JInt 15])].
  split_and!; try reflexivity.
  - simpl. rewrite !elem_of_cons, elem_of_nil. intros [?|[?|[]]]; discriminate.
  - intros text. vm_compute. discriminate.
Qed.

Lemma plot_tool_absent_column_witness :
  let params := Fake.params_with "day" "profit" in
  rejects_absent_columns
  ∧ absent_column
      [("day", [JInt 1; JInt 2; JInt 3]); ("sales", [JInt 10; JInt 20; JInt 15])]
      (JStr "profit")
  ∧ ∃ msg,
      create_chart "line"
        [("day", [JInt 1; JInt 2; JInt 3]); ("sales", [JInt 10; JInt 20; JInt 15])]
        (JStr "day") (JStr "profit") = inl (OtherException msg)
      ∧ plot_tool params "line" "charts" None Fake.empty_world
        = (error_result ("Error generating chart: " ++ msg), Fake.empty_world).
Proof.
  intros params.
  assert (absent_column
            [("day", [JInt 1; JInt 2; JInt 3]);
             ("sales", [JInt 10; JInt 20; JInt 15])] (JStr "profit")) as Habsent.
  { exists "profit". split; [reflexivity|]. simpl.
    rewrite !elem_of_cons, elem_of_nil. intros [?|[?|[]]]; discriminate. }
  split_and!; [apply fake_rejects_absent_columns|exact Habsent|].
  apply (plot_tool_absent_column params "line" "charts" None Fake.empty_world
           (JObj [("df", JObj [("day", JArr [JInt 1; JInt 2; JInt 3]);
                               ("sales", JArr [JInt 10; JInt 20; JInt 15])]);
                  ("x_col", JStr "day"); ("y_col", JStr "profit")])
           (JObj [("day", JArr [JInt 1; JInt 2; JInt 3]);
                  ("sales", JArr [JInt 10; JInt 20; JInt 15])])
           (JStr "day") (JStr "profit")).
  - apply fake_rejects_absent_columns.
  - reflexivity.
  - reflexivity.
  - reflexivity.
  - reflexivity.
  - reflexivity.
  - right. exact Habsent.
Defined.

(** A session whose artifact service was never configured: saving the
    image raises, and the answer is the generic error with that text. *)
Lemma tools_return_structured_results_witness :
  plot_tool_body (adk := Fake.adk_unconfigured) Fake.sample_params "line"
    "charts" (Some ToolContextHandle) Fake.unconfigured_world
  = (inl (OtherException "Artifact service is not initialized."),
     Fake.unconfigured_world)
  ∧ plot_tool (adk := Fake.adk_unconfigured) Fake.sample_params "line" "charts"
      (Some ToolContextHandle) Fake.unconfigured_world
    = (error_result
         ("Error generating chart: " ++ "Artifact service is not initialized."),
       Fake.unconfigured_world).
Proof.
  split; [reflexivity|].
  apply (proj2 (proj2 (proj2 (proj2
           (tools_return_structured_results (adk := Fake.adk_unconfigured)))))).
  reflexivity.
Defined.

(** The sample drawn without a context lands in [charts/]. *)
Lemma tools_without_context_witness :
  let w := Fake.empty_world in
  let filepath := "charts/area_sales_vs_day_20240309_140507.png" in
  list_charts_tool None w
  = (error_result "ToolContext required for artifact access", w)
  ∧ load_chart_tool "a.png" None w
    = (error_result "ToolContext required for artifact access", w)
  ∧ delete_chart_tool "a.png" None w
    = (error_result "ToolContext required for state management", w)
  ∧ plot_tool Fake.sample_params "area" "charts" None w
    = ([ ("status", PyStr "success");
         ("filepath", PyStr filepath);
         ("chart_type", PyStr "area");
         ("message", PyStr ("Chart saved to " ++ filepath)) ],
       set_files {| Fake.dirs := ["charts"];
                    Fake.written := [(filepath, Fake.png_signature)] |} w).
Proof.
  intros w filepath.
  apply (tools_without_context (lib := Fake.chartlib) (adk := Fake.adk)
           Fake.sample_params "area" "charts" "a.png" w
           (JObj [("df", JObj [("day", JArr [JInt 1; JInt 2; JInt 3]);
                               ("sales", JArr [JInt 10; JInt 20; JInt 15])]);
                  ("x_col", JStr "day"); ("y_col", JStr "sales")])
           (JObj [("day", JArr [JInt 1; JInt 2; JInt 3]);
                  ("sales", JArr [JInt 10; JInt 20; JInt 15])])
           (JStr "day") (JStr "sales")
           [("day", [JInt 1; JInt 2; JInt 3]);
            ("sales", [JInt 10; JInt 20; JInt 15])]
           {| Fake.kind := "area";
              Fake.frame := [("day", [JInt 1; JInt 2; JInt 3]);
                             ("sales", [JInt 10; JInt 20; JInt 15])];
              Fake.fig_x := JStr "day"; Fake.fig_y := JStr "sales";
              Fake.fig_title := "sales vs day";
              Fake.layout := Some (16%N, "Day", "Sales", "plotly_white") |}
           {| Fake.dirs := ["charts"]; Fake.written := [] |});
    reflexivity.
Defined.

(** The sample drawn with a context: one record is tracked afterwards. *)
Lemma plot_tool_appends_record_witness :
  let run := plot_tool Fake.sample_params "bar" "charts" (Some ToolContextHandle)
               Fake.empty_world in
  status (fst run) = Some "success"
  ∧ snd run = Fake.world_with_chart
  ∧ ∃ x y filename version img_bytes,
      filename = "bar" ++ "_" ++ y ++ "_vs_" ++ x ++ "_"
                 ++ strftime Fake.sample_clock ++ ".png"
      ∧ save_artifact filename (Part_from_bytes img_bytes "image/png") []
        = (inr version, artifacts (snd run))
      ∧ state (snd run) !! "generated_charts"
        = Some ([] ++ [ChartRecord.Build filename "bar" (JStr x) (JStr y)
                         (strftime Fake.sample_clock) version])%list
      ∧ (∀ key, key ≠ "generated_charts" →
                state (snd run) !! key = state Fake.empty_world !! key)
      ∧ files (snd run) = files Fake.empty_world
      ∧ fst run = [ ("status", PyStr "success");
                    ("artifact_name", PyStr filename);
                    ("version", PyVersion version);
                    ("chart_type", PyStr "bar");
                    ("message", PyStr ("Chart saved as artifact: " ++ filename)) ].
Proof.
  intros run. split_and!; [reflexivity|reflexivity|].
  apply (plot_tool_appends_record Fake.sample_params "bar" "charts"
           ToolContextHandle Fake.empty_world (fst run) (snd run));
    reflexivity.
Defined.

(** The file name of the sample, with and without a context. *)
Lemma plot_tool_filename_witness :
  let run := plot_tool Fake.sample_params "scatter" "out/" None Fake.empty_world in
  valid_datetime Fake.sample_clock
  ∧ status (fst run) = Some "success"
  ∧ assoc "filepath" (fst run)
    = Some (PyStr "out/scatter_sales_vs_day_20240309_140507.png")
  ∧ ∃ data x y timestamp,
      json_loads Fake.sample_params = inr data
      ∧ getitem data "x_col" = inr (JStr x)
      ∧ getitem data "y_col" = inr (JStr y)
      ∧ timestamp = strftime Fake.sample_clock
      ∧ String.length timestamp = 15
      ∧ parse_timestamp timestamp = Some Fake.sample_clock
      ∧ assoc "filepath" (fst run)
        = Some (PyStr (os_path_join "out/"
                         ("scatter" ++ "_" ++ y ++ "_vs_" ++ x ++ "_"
                          ++ timestamp ++ ".png"))).
Proof.
  intros run.
  assert (valid_datetime Fake.sample_clock) as Hclock
    by (unfold valid_datetime; simpl; lia).
  split_and!; [exact Hclock|reflexivity|reflexivity|].
  apply (plot_tool_filename Fake.sample_params "scatter" "out/" None
           Fake.empty_world (fst run) (snd run) Hclock); reflexivity.
Defined.

(** A pie chart is not on offer: the figure is the line chart. *)
Lemma unknown_chart_type_renders_line_witness :
  let df := [("day", [JInt 1; JInt 2]); ("sales", [JInt 10; JInt 20])] in
  ("pie" ∉ ["line"; "bar"; "scatter"; "area"])
  ∧ build_figure "pie" df (JStr "day") (JStr "sales")
    = build_figure "line" df (JStr "day") (JStr "sales")
  ∧ ∃ fig, build_figure "pie" df (JStr "day") (JStr "sales") = inr fig
           ∧ Fake.kind fig = "line".
Proof.
  intros df.
  assert ("pie" ∉ ["line"; "bar"; "scatter"; "area"]) as Hpie.
  { rewrite !elem_of_cons, elem_of_nil. intros [?|[?|[?|[?|[]]]]]; discriminate. }
  split_and!; [exact Hpie| |eexists; split; reflexivity].
  exact (proj1 (proj2 (unknown_chart_type_renders_line
                         "pie" df (JStr "day") (JStr "sales") Hpie))).
Defined.

(** Deleting from the world with one tracked chart: an untracked name is
    a warning and changes nothing, the tracked name leaves an empty list. *)
Lemma delete_chart_tool_removes_witness :
  let tc := ToolContextHandle in
  let w := Fake.world_with_chart in
  delete_chart_tool "other.png" (Some tc) w
  = (not_tracked_result "other.png", w)
  ∧ delete_chart_tool "bar_sales_vs_day_20240309_140507.png" (Some tc) w
    = (removed_result "bar_sales_vs_day_20240309_140507.png" 1,
       set_state (<["generated_charts" := []]> (state w)) w).
Proof.
  intros tc w. split.
  - exact (proj2 (proj2 (proj2 (delete_chart_tool_removes "other.png" tc w)))).
  - exact (proj2 (proj2 (proj2
             (delete_chart_tool_removes
                "bar_sales_vs_day_20240309_140507.png" tc w)))).
Defined.

(** Loading from the world with one tracked chart: a name never drawn is
    not found; the chart that was drawn comes back with its record. *)
Lemma load_chart_tool_lookup_witness :
  let tc := ToolContextHandle in
  let w := Fake.world_with_chart in
  let name := "bar_sales_vs_day_20240309_140507.png" in
  load_artifact "other.png" (artifacts w) = (inr None, artifacts w)
  ∧ load_chart_tool "other.png" (Some tc) w
    = (error_result "Chart 'other.png' not found in artifacts", w)
  ∧ load_artifact name (artifacts w)
    = (inr (Some (Part_from_bytes Fake.png_signature "image/png")), artifacts w)
  ∧ load_chart_tool name (Some tc) w
    = (loaded_result name (Some Fake.sample_record) (PyStr "image/png"), w).
Proof.
  intros tc w name. split_and!; [reflexivity| |reflexivity|].
  - exact (proj1 (proj1 (load_chart_tool_lookup "other.png" tc w)
                    (artifacts w) eq_refl)).
  - exact (proj1 (proj2 (load_chart_tool_lookup name tc w)
                    (Part_from_bytes Fake.png_signature "image/png")
                    (PyStr "image/png") (artifacts w) eq_refl eq_refl)).
Defined.

(** Listing the world with one tracked chart. *)
Lemma list_and_load_preserve_state_witness :
  let tc := ToolContextHandle in
  let w := Fake.world_with_chart in
  let name := "bar_sales_vs_day_20240309_140507.png" in
  list_artifacts (artifacts w) = (inr [name], artifacts w)
  ∧ list_charts_tool (Some tc) w
    = (listing_result [name] [Fake.sample_record], w)
  ∧ tracked (snd (load_chart_tool name (Some tc) w)) = [Fake.sample_record].
Proof.
  intros tc w name. split_and!; [reflexivity| |].
  - exact (proj1 (proj2 (proj2 (proj2 (proj2
             (list_and_load_preserve_state name (Some tc) w))))
             tc [name] (artifacts w) eq_refl)).
  - exact (proj1 (proj2 (proj2 (proj2
             (list_and_load_preserve_state name (Some tc) w))))).
Defined.

(** After a chart is drawn with a context, the listing shows its name
    among the artifacts and its record in the history. *)
Example list_after_plot :
  let tc := Some ToolContextHandle in
  let w := snd (plot_tool Fake.sample_params "bar" "charts" tc Fake.empty_world) in
  fst (list_charts_tool tc w)
  = listing_result ["bar_sales_vs_day_20240309_140507.png"] [Fake.sample_record].
Proof. reflexivity. Qed.

(** Deleting a chart from the history leaves its artifact in the store:
    loading it afterwards succeeds, without a record. *)
Example load_after_delete :
  let tc := Some ToolContextHandle in
  let name := "bar_sales_vs_day_20240309_140507.png" in
  let w := snd (delete_chart_tool name tc Fake.world_with_chart) in
  tracked w = []
  ∧ fst (load_chart_tool name tc w)
    = loaded_result name None (PyStr "image/png").
Proof. split; reflexivity. Qed.

(** An object without ['x_col'] is reported by key. *)
Example missing_x_col :
  fst (plot_tool ("{" ++ Fake.q "df" ++ ": {}, " ++ Fake.q "y_col" ++ ": "
                  ++ Fake.q "sales" ++ "}")
                 "line" "charts" None Fake.empty_world)
  = error_result "Missing key in JSON data: 'x_col'".
Proof. reflexivity. Qed.

(** JSON that is not an object is neither malformed nor short of a key:
    subscripting it raises [TypeError]. *)
Example params_not_an_object :
  fst (plot_tool "[1, 2]" "line" "charts" None Fake.empty_world)
  = error_result
      "Error generating chart: list indices must be integers or slices, not str".
Proof. reflexivity. Qed.

(** ** A column name with a separator *)






(** ** Runs for the further properties *)

Lemma plot_tool_missing_json_key_witness :
  let params := "{" ++ Fake.q "df" ++ ": {}, " ++ Fake.q "y_col" ++ ": "
                ++ Fake.q "sales" ++ "}" in
  json_loads params = inr (JObj [("df", JObj []); ("y_col", JStr "sales")])
  ∧ first_missing_key [("df", JObj []); ("y_col", JStr "sales")] = Some "x_col"
  ∧ plot_tool params "line" "charts" (Some ToolContextHandle) Fake.empty_world
    = (error_result ("Missing key in JSON data: '" ++ "x_col" ++ "'"),
       Fake.empty_world).
Proof.
  intros params. split_and!; [reflexivity|reflexivity|].
  apply (plot_tool_missing_json_key params "line" "charts"
           (Some ToolContextHandle) Fake.empty_world
           [("df", JObj []); ("y_col", JStr "sales")] "x_col");
    reflexivity.
Defined.

Lemma plot_tool_not_an_object_witness :
  json_loads "[1, 2]" = inr (JArr [JInt 1; JInt 2])
  ∧ (∀ fields, JArr [JInt 1; JInt 2] ≠ JObj fields)
  ∧ ∃ msg,
      getitem (JArr [JInt 1; JInt 2]) "df" = inl (OtherException msg)
      ∧ plot_tool "[1, 2]" "line" "charts" None Fake.empty_world
        = (error_result ("Error generating chart: " ++ msg), Fake.empty_world).
Proof.
  split_and!; [reflexivity|discriminate|].
  apply (plot_tool_not_an_object "[1, 2]" "line" "charts" None
           Fake.empty_world (JArr [JInt 1; JInt 2]));
    [reflexivity|discriminate].
Defined.

Lemma plot_tool_needs_string_columns_witness :
  let params := Fake.numeric_column_params in
  let data := JObj [("df", JObj [("day", JArr [JInt 1; JInt 2; JInt 3]);
                                 ("sales", JArr [JInt 10; JInt 20; JInt 15])]);
                    ("x_col", JInt 7); ("y_col", JStr "sales")] in
  json_loads params = inr data
  ∧ getitem data "x_col" = inr (JInt 7)
  ∧ status (fst (plot_tool params "line" "charts" None Fake.empty_world))
    = Some "error"
  ∧ snd (plot_tool params "line" "charts" None Fake.empty_world)
    = Fake.empty_world.
Proof.
  intros params data. split_and!; [reflexivity|reflexivity|..];
    apply (plot_tool_needs_string_columns params "line" "charts" None
             Fake.empty_world data (JInt 7) (JStr "sales"));
    try reflexivity; left; discriminate.
Defined.

Lemma plot_tool_frame_rejected_witness :
  let params := Fake.ragged_params in
  let df_data := JObj [("day", JArr [JInt 1; JInt 2; JInt 3]);
                       ("sales", JArr [JInt 10; JInt 20])] in
  pd_DataFrame df_data
  = inl (OtherException "All arrays must be of the same length")
  ∧ plot_tool params "bar" "charts" (Some ToolContextHandle) Fake.empty_world
    = (error_result
         ("Error generating chart: " ++ "All arrays must be of the same length"),
       Fake.empty_world).
Proof.
  intros params df_data. split; [reflexivity|].
  apply (plot_tool_frame_rejected params "bar" "charts"
           (Some ToolContextHandle) Fake.empty_world
           (JObj [("df", df_data); ("x_col", JStr "day");
                  ("y_col", JStr "sales")])
           df_data (JStr "day") (JStr "sales")
           (OtherException "All arrays must be of the same length"));
    reflexivity.
Defined.

Lemma plot_tool_error_keeps_state_witness :
  let run := plot_tool Fake.ragged_params "bar" "charts"
               (Some ToolContextHandle) Fake.world_with_chart in
  status (fst run) ≠ Some "success"
  ∧ status (fst run) = Some "error"
  ∧ state (snd run) = state Fake.world_with_chart
  ∧ tracked (snd run) = [Fake.sample_record].
Proof.
  intros run. split; [discriminate|].
  apply (plot_tool_error_keeps_state Fake.ragged_params "bar" "charts"
           (Some ToolContextHandle) Fake.world_with_chart (fst run) (snd run));
    [reflexivity|discriminate].
Defined.

Lemma plot_tool_write_failure_witness :
  plot_tool (lib := Fake.chartlib_disk_full) Fake.sample_params "line" "charts"
    None Fake.empty_world
  = (error_result
       ("Error generating chart: " ++ "[Errno 28] No space left on device"),
     set_files {| Fake.dirs := ["charts"]; Fake.written := [] |}
               Fake.empty_world).
Proof.
  apply (plot_tool_write_failure (lib := Fake.chartlib_disk_full)
           (adk := Fake.adk) Fake.sample_params "line" "charts"
           Fake.empty_world
           (JObj [("df", JObj [("day", JArr [JInt 1; JInt 2; JInt 3]);
                               ("sales", JArr [JInt 10; JInt 20; JInt 15])]);
                  ("x_col", JStr "day"); ("y_col", JStr "sales")])
           (JObj [("day", JArr [JInt 1; JInt 2; JInt 3]);
                  ("sales", JArr [JInt 10; JInt 20; JInt 15])])
           (JStr "day") (JStr "sales")
           [("day", [JInt 1; JInt 2; JInt 3]);
            ("sales", [JInt 10; JInt 20; JInt 15])]
           {| Fake.kind := "line";
              Fake.frame := [("day", [JInt 1; JInt 2; JInt 3]);
                             ("sales", [JInt 10; JInt 20; JInt 15])];
              Fake.fig_x := JStr "day"; Fake.fig_y := JStr "sales";
              Fake.fig_title := "sales vs day";
              Fake.layout := Some (16%N, "Day", "Sales", "plotly_white") |}
           {| Fake.dirs := ["charts"]; Fake.written := [] |}
           {| Fake.dirs := ["charts"]; Fake.written := [] |}
           (OtherException "[Errno 28] No space left on device"));
    reflexivity.
Defined.

Lemma sample_record_well_formed : well_formed_record Fake.sample_record.
Proof. by exists "day", "sales". Qed.

Lemma tools_keep_records_well_formed_witness :
  let tc := Some ToolContextHandle in
  let w := Fake.world_with_chart in
  Forall well_formed_record (tracked w)
  ∧ Forall well_formed_record
      (tracked (snd (plot_tool Fake.sample_params "area" "charts" tc w)))
  ∧ List.length (tracked (snd (plot_tool Fake.sample_params "area" "charts" tc w)))
    = 2%nat.
Proof.
  intros tc w.
  assert (Forall well_formed_record (tracked w)) as Hwf
    by (constructor; [apply sample_record_well_formed|constructor]).
  split_and!; [exact Hwf| |reflexivity].
  exact (proj1 (tools_keep_records_well_formed Fake.sample_params "area"
                  "charts" "a.png" tc w Hwf)).
Defined.

Lemma plot_tool_filepath_witness :
  let run := plot_tool Fake.sample_params "/tmp/x" "charts" None
               Fake.empty_world in
  status (fst run) = Some "success"
  ∧ PyStr.startswith_char "/tmp/x" "/" = true
  ∧ assoc "filepath" (fst run)
    = Some (PyStr "/tmp/x_sales_vs_day_20240309_140507.png")
  ∧ Fake.written (files (snd run))
    = [("/tmp/x_sales_vs_day_20240309_140507.png", Fake.png_signature)]
  ∧ ∃ x y,
      let filename := "/tmp/x" ++ "_" ++ y ++ "_vs_" ++ x ++ "_"
                      ++ strftime Fake.sample_clock ++ ".png" in
      (PyStr.startswith_char "/tmp/x" "/" = true →
       assoc "filepath" (fst run) = Some (PyStr filename))
      ∧ (PyStr.startswith_char "/tmp/x" "/" = false →
         ∃ rest, assoc "filepath" (fst run) = Some (PyStr ("charts" ++ rest))
                 ∧ (rest = filename ∨ rest = "/" ++ filename)).
Proof.
  intros run. split_and!; [reflexivity..|].
  apply (plot_tool_filepath Fake.sample_params "/tmp/x" "charts"
           Fake.empty_world (fst run) (snd run)); reflexivity.
Defined.

Lemma load_chart_tool_without_blob_witness :
  load_artifact "notes.png" (artifacts Fake.world_with_note)
  = (inr (Some Fake.text_part), artifacts Fake.world_with_note)
  ∧ inline_data Fake.text_part = Present None
  ∧ load_chart_tool "notes.png" (Some ToolContextHandle) Fake.world_with_note
    = (error_result
         ("Error loading chart: "
          ++ "'NoneType' object has no attribute 'mime_type'"),
       Fake.world_with_note).
Proof.
  split_and!; [reflexivity|reflexivity|].
  apply (load_chart_tool_without_blob "notes.png" ToolContextHandle
           Fake.world_with_note Fake.text_part
           (artifacts Fake.world_with_note)); reflexivity.
Defined.

Lemma load_after_delete_has_no_record_witness :
  let tc := ToolContextHandle in
  let name := "bar_sales_vs_day_20240309_140507.png" in
  let w := Fake.world_with_chart in
  let w' := snd (delete_chart_tool name (Some tc) w) in
  load_artifact name (artifacts w)
  = (inr (Some (Part_from_bytes Fake.png_signature "image/png")), artifacts w)
  ∧ tracked w' = []
  ∧ load_chart_tool name (Some tc) w'
    = (loaded_result name None (PyStr "image/png"), w').
Proof.
  intros tc name w w'. split_and!; [reflexivity|reflexivity|].
  apply (load_after_delete_has_no_record name tc w
           (Part_from_bytes Fake.png_signature "image/png")
           (PyStr "image/png") (artifacts w)); reflexivity.
Defined.

Lemma delete_after_plot_restores_tracking_witness :
  let tc := ToolContextHandle in
  let name := "area_sales_vs_day_20240309_140507.png" in
  let w := Fake.world_with_chart in
  let run := plot_tool Fake.sample_params "area" "charts" (Some tc) w in
  status (fst run) = Some "success"
  ∧ assoc "artifact_name" (fst run) = Some (PyStr name)
  ∧ Forall (λ c, ChartRecord.filename c ≠ name) (tracked w)
  ∧ fst (delete_chart_tool name (Some tc) (snd run)) = removed_result name 1
  ∧ tracked (snd (delete_chart_tool name (Some tc) (snd run))) = tracked w.
Proof.
  intros tc name w run.
  assert (Forall (λ c : ChartRecord.t nat, ChartRecord.filename c ≠ name)
                 (tracked w)) as Hfresh
    by (constructor; [discriminate|constructor]).
  split_and!; [reflexivity|reflexivity|exact Hfresh|..];
    apply (delete_after_plot_restores_tracking Fake.sample_params "area"
             "charts" tc w (fst run) (snd run) name);
    (reflexivity || exact Hfresh).
Defined.

Lemma plot_tool_twice_same_second_witness :
  let tc := ToolContextHandle in
  let run1 := plot_tool Fake.sample_params "bar" "charts" (Some tc)
                Fake.empty_world in
  let run2 := plot_tool Fake.sample_params "bar" "charts" (Some tc) (snd run1) in
  status (fst run1) = Some "success"
  ∧ status (fst run2) = Some "success"
  ∧ List.map ChartRecord.version (tracked (snd run2)) = [0%nat; 1%nat]
  ∧ ∃ name first second,
      assoc "artifact_name" (fst run1) = Some (PyStr name)
      ∧ assoc "artifact_name" (fst run2) = Some (PyStr name)
      ∧ tracked (snd run2) = (tracked Fake.empty_world ++ [first; second])%list
      ∧ ChartRecord.filename first = name
      ∧ ChartRecord.filename second = name
      ∧ (2 ≤ count_named name (tracked (snd run2)))%nat
      ∧ fst (delete_chart_tool name (Some tc) (snd run2))
        = removed_result name (count_named name (tracked (snd run2))).
Proof.
  intros tc run1 run2. split_and!; [reflexivity..|].
  apply (plot_tool_twice_same_second Fake.sample_params "bar" "charts" tc
           Fake.empty_world (fst run1) (snd run1) (snd run1)
           (fst run2) (snd run2)); reflexivity.
Defined.

Lemma list_after_plot_shows_chart_witness :
  let tc := ToolContextHandle in
  let name := "bar_sales_vs_day_20240309_140507.png" in
  let run := plot_tool Fake.sample_params "bar" "charts" (Some tc)
               Fake.empty_world in
  status (fst run) = Some "success"
  ∧ list_artifacts (artifacts (snd run)) = (inr [name], artifacts (snd run))
  ∧ ∃ chart_artifacts record,
      list_charts_tool (Some tc) (snd run)
      = (listing_result chart_artifacts
           (tracked Fake.empty_world ++ [record])%list,
         set_artifacts (artifacts (snd run)) (snd run))
      ∧ name ∈ chart_artifacts
      ∧ ChartRecord.filename record = name
      ∧ ChartRecord.chart_type record = "bar"
      ∧ assoc "version" (fst run)
        = Some (PyVersion (ChartRecord.version record)).
Proof.
  intros tc name run. split_and!; [reflexivity|reflexivity|].
  apply (list_after_plot_shows_chart Fake.sample_params "bar" "charts" tc
           Fake.empty_world (fst run) (snd run) name [name]
           (artifacts (snd run))); try reflexivity.
  constructor.
Defined.

Lemma load_after_plot_returns_record_witness :
  let tc := ToolContextHandle in
  let name := "bar_sales_vs_day_20240309_140507.png" in
  let run := plot_tool Fake.sample_params "bar" "charts" (Some tc)
               Fake.empty_world in
  status (fst run) = Some "success"
  ∧ load_artifact name (artifacts (snd run))
    = (inr (Some (Part_from_bytes Fake.png_signature "image/png")),
       artifacts (snd run))
  ∧ ∃ record,
      load_chart_tool name (Some tc) (snd run)
      = (loaded_result name (Some record) (PyStr "image/png"),
         set_artifacts (artifacts (snd run)) (snd run))
      ∧ ChartRecord.filename record = name
      ∧ ChartRecord.chart_type record = "bar"
      ∧ assoc "version" (fst run)
        = Some (PyVersion (ChartRecord.version record)).
Proof.
  intros tc name run. split_and!; [reflexivity|reflexivity|].
  apply (load_after_plot_returns_record Fake.sample_params "bar" "charts" tc
           Fake.empty_world (fst run) (snd run) name
           (Part_from_bytes Fake.png_signature "image/png")
           (PyStr "image/png") (artifacts (snd run)));
    try reflexivity. constructor.
Defined.

Lemma artifact_errors_are_reported_witness :
  let tc := ToolContextHandle in
  let w := Fake.unconfigured_world in
  list_charts_tool (adk := Fake.adk_unconfigured) (Some tc) w
  = (error_result
       ("Error listing charts: " ++ "Artifact service is not initialized."),
     w)
  ∧ load_chart_tool (adk := Fake.adk_unconfigured) "a.png" (Some tc) w
    = (error_result
         ("Error loading chart: " ++ "Artifact service is not initialized."),
       w).
Proof.
  intros tc w. split.
  - exact (proj1 (artifact_errors_are_reported (adk := Fake.adk_unconfigured)
                    "a.png" tc w)
             (OtherException "Artifact service is not initialized.") tt
             eq_refl).
  - exact (proj2 (artifact_errors_are_reported (adk := Fake.adk_unconfigured)
                    "a.png" tc w)
             (OtherException "Artifact service is not initialized.") tt
             eq_refl).
Defined.

Lemma plot_tool_frame_witness :
  let tc := ToolContextHandle in
  let w := Fake.world_with_chart in
  files (snd (plot_tool Fake.sample_params "area" "charts" (Some tc) w))
  = files w
  ∧ artifacts (snd (plot_tool Fake.sample_params "area" "charts" None w))
    = artifacts w
  ∧ state (snd (plot_tool Fake.sample_params "area" "charts" None w)) = state w
  ∧ clock (snd (plot_tool Fake.sample_params "area" "charts" None w)) = clock w.
Proof.
  intros tc w.
  exact (plot_tool_frame Fake.sample_params "area" "charts" tc None w).
Defined.

Lemma delete_chart_tool_twice_witness :
  let tc := ToolContextHandle in
  let name := "bar_sales_vs_day_20240309_140507.png" in
  let w' := snd (delete_chart_tool name (Some tc) Fake.world_with_chart) in
  tracked w' = []
  ∧ delete_chart_tool name (Some tc) w' = (not_tracked_result name, w').
Proof.
  intros tc name w'. split; [reflexivity|].
  exact (delete_chart_tool_twice name tc Fake.world_with_chart).
Defined.

Lemma delete_chart_tool_commute_witness :
  let tc := ToolContextHandle in
  let bar := "bar_sales_vs_day_20240309_140507.png" in
  let area := "area_sales_vs_day_20240309_140507.png" in
  let w := snd (plot_tool Fake.sample_params "area" "charts" (Some tc)
                  Fake.world_with_chart) in
  List.map ChartRecord.filename (tracked w) = [bar; area]
  ∧ tracked (snd (delete_chart_tool area (Some tc)
                    (snd (delete_chart_tool bar (Some tc) w))))
    = tracked (snd (delete_chart_tool bar (Some tc)
                      (snd (delete_chart_tool area (Some tc) w)))).
Proof.
  intros tc bar area w. split; [reflexivity|].
  exact (delete_chart_tool_commute bar area tc w).
Defined.

End Runs.
